(** * Verification of the streaming statistics accumulator [stats.py]

    The class [Stats] keeps a fixed-size summary (count, minimum, maximum,
    anchor [_K], centred sums [_Ex] and [_Ex2], raw sum) of the values added
    to it and derives mean, variance, standard deviation, standard error and
    a confidence half-width from that summary.

    Numbers are modelled in exact arithmetic: a Python float is a real
    number of [R], with the two infinities of [float('inf')] added for the
    [_minimum] and [_maximum] fields.  The sample count is a Python [int],
    modelled as [Z].  A method is a state transformer that may raise: it
    returns a [result] together with the state the object is left in, so a
    mutation made before a [raise] stays visible, as in Python.

    Exact arithmetic decides what a statistic is equal to.  It does not
    decide whether a call returns where binary64 rounding or overflow
    matters: for that the same class is embedded a second time, over
    primitive binary64 floats, in the module [Float64]. *)

From Stdlib Require Import Reals Lra Lia ZArith List String Permutation.
From Stdlib Require Floats.PrimFloat Floats.SpecFloat Floats.FloatOps.
Import ListNotations.

Open Scope R_scope.

(** ** Values *)

(** Floats extended with the infinities the constructor stores. *)
Inductive xreal : Type :=
| NegInf : xreal
| Fin : R -> xreal
| PosInf : xreal.

(** Order on extended reals. *)
Definition xle (a b : xreal) : Prop :=
  match a, b with
  | NegInf, _ => True
  | _, PosInf => True
  | Fin x, Fin y => x <= y
  | _, _ => False
  end.

(** [min(a, v)]: Python returns the first argument unless the second is
    strictly smaller. *)
Definition py_min (a : xreal) (v : R) : xreal :=
  match a with
  | NegInf => NegInf
  | Fin r => if Rlt_dec v r then Fin v else Fin r
  | PosInf => Fin v
  end.

(** [max(a, v)]: Python returns the first argument unless the second is
    strictly larger. *)
Definition py_max (a : xreal) (v : R) : xreal :=
  match a with
  | NegInf => Fin v
  | Fin r => if Rgt_dec v r then Fin v else Fin r
  | PosInf => PosInf
  end.

(** ** Exceptions and results *)

Inductive exn : Type :=
| StatsException (msg : string)
| ValueError
| ZeroDivisionError
| OverflowError.

Inductive result (A : Type) : Type :=
| Ok (a : A)
| Raise (e : exn).

Arguments Ok {A} a.
Arguments Raise {A} e.

Definition rbind {A B : Type} (r : result A) (k : A -> result B) : result B :=
  match r with
  | Ok a => k a
  | Raise e => Raise e
  end.

Notation "'try' x <- e ; k" := (rbind e (fun x => k))
  (at level 10, x name, e at level 100, k at level 200).

(** [a / b] for a float numerator: raises on a zero divisor.  It is also the
    division by the sample count, an [int] that counts the calls to [add]
    and converts to a float without overflow. *)
Definition py_div (a b : R) : result R :=
  if Req_dec_T b 0 then Raise ZeroDivisionError else Ok (a / b).

(** The least magnitude of an [int] that no longer converts to a float: half
    way between the largest binary64 number, 2^1024 - 2^971, and 2^1024. *)
Definition float_int_limit : BinNums.Z := (2 ^ 1024 - 2 ^ 970)%Z.

(** [a / n] for a float [a] and an [int] argument [n] of the caller: the int
    is converted to a float first, which raises [OverflowError] when it is
    too large; then a zero divisor raises. *)
Definition py_div_int (a : R) (n : BinNums.Z) : result R :=
  if (float_int_limit <=? Z.abs n)%Z then Raise OverflowError
  else py_div a (IZR n).

(** [math.sqrt]: raises [ValueError] on a negative argument. *)
Definition math_sqrt (x : R) : result R :=
  if Rlt_dec x 0 then Raise ValueError else Ok (sqrt x).

(** [math.log]: raises [ValueError] on a non-positive argument. *)
Definition math_log (x : R) : result R :=
  if Rle_dec x 0 then Raise ValueError else Ok (ln x).

(** [math.fabs] *)
Definition math_fabs (x : R) : R := Rabs x.

(** ** The accumulator *)

(** Python's [int]; the class has a method named [Z]. *)
Abbreviation int := BinNums.Z (only parsing).

Record Stats : Type := mkStats {
  _count : int;
  _minimum : xreal;
  _maximum : xreal;
  _K : R;
  _Ex : R;
  _Ex2 : R;
  _sum : R
}.

Definition set_count (v : int) (s : Stats) : Stats :=
  mkStats v (_minimum s) (_maximum s) (_K s) (_Ex s) (_Ex2 s) (_sum s).
Definition set_minimum (v : xreal) (s : Stats) : Stats :=
  mkStats (_count s) v (_maximum s) (_K s) (_Ex s) (_Ex2 s) (_sum s).
Definition set_maximum (v : xreal) (s : Stats) : Stats :=
  mkStats (_count s) (_minimum s) v (_K s) (_Ex s) (_Ex2 s) (_sum s).
Definition set_K (v : R) (s : Stats) : Stats :=
  mkStats (_count s) (_minimum s) (_maximum s) v (_Ex s) (_Ex2 s) (_sum s).
Definition set_Ex (v : R) (s : Stats) : Stats :=
  mkStats (_count s) (_minimum s) (_maximum s) (_K s) v (_Ex2 s) (_sum s).
Definition set_Ex2 (v : R) (s : Stats) : Stats :=
  mkStats (_count s) (_minimum s) (_maximum s) (_K s) (_Ex s) v (_sum s).
Definition set_sum (v : R) (s : Stats) : Stats :=
  mkStats (_count s) (_minimum s) (_maximum s) (_K s) (_Ex s) (_Ex2 s) v.

(** A method body: reads and writes [self], returns or raises. *)
Definition M (A : Type) : Type := Stats -> result A * Stats.

Definition ret {A : Type} (a : A) : M A := fun self => (Ok a, self).
Definition raise {A : Type} (e : exn) : M A := fun self => (Raise e, self).
Definition get : M Stats := fun self => (Ok self, self).
Definition modify (f : Stats -> Stats) : M unit := fun self => (Ok tt, f self).
Definition lift {A : Type} (r : result A) : M A := fun self => (r, self).
Definition bind {A B : Type} (m : M A) (k : A -> M B) : M B :=
  fun self =>
    match m self with
    | (Ok a, self') => k a self'
    | (Raise e, self') => (Raise e, self')
    end.

Notation "'do' x <- e ; k" := (bind e (fun x => k))
  (at level 10, x name, e at level 100, k at level 200).
Notation "e ;; k" := (bind e (fun _ => k))
  (at level 100, k at level 200, right associativity).

(** The two message templates of the class. *)
Definition _need1ErrStr (op : string) : string :=
  (op ++ " is undefined for less than one sample")%string.
Definition _need2ErrStr (op : string) : string :=
  (op ++ " is undefined for less than two samples")%string.

Module StatsM.

(** [Stats.reset] *)
Definition reset : M unit :=
  modify (set_count 0) ;;
  modify (set_minimum PosInf) ;;
  modify (set_maximum NegInf) ;;
  modify (set_K 0) ;;
  modify (set_Ex 0) ;;
  modify (set_Ex2 0) ;;
  modify (set_sum 0).

(** [Stats.__init__] *)
Definition __init__ : M unit := reset.

(** [Stats.add].  The test [self._count is 0] compares with the integer 0;
    the anchor is written before the count is incremented. *)
Definition add (value : R) : M unit :=
  modify (fun self => set_minimum (py_min (_minimum self) value) self) ;;
  modify (fun self => set_maximum (py_max (_maximum self) value) self) ;;
  do self <- get ;
  (if (_count self =? 0)%Z then modify (set_K value) else ret tt) ;;
  modify (fun self => set_count (_count self + 1) self) ;;
  modify (fun self => set_Ex (_Ex self + (value - _K self)) self) ;;
  modify (fun self =>
            set_Ex2 (_Ex2 self + (value - _K self) * (value - _K self)) self) ;;
  modify (fun self => set_sum (_sum self + value) self).

(** [Stats.remove]: the state is reset before the exception is raised. *)
Definition remove (value : R) : M unit :=
  reset ;;
  raise (StatsException "the removal of values is not implemented").

(** [Stats.count] *)
Definition count : M int :=
  do self <- get ;
  ret (_count self).

(** [Stats.sum] *)
Definition sum : M R :=
  do self <- get ;
  if (_count self <? 1)%Z then raise (StatsException (_need1ErrStr "sum"))
  else ret (_sum self).

(** [Stats.min] *)
Definition min : M xreal :=
  do self <- get ;
  if (_count self <? 1)%Z then raise (StatsException (_need1ErrStr "minimum"))
  else ret (_minimum self).

(** [Stats.max] *)
Definition max : M xreal :=
  do self <- get ;
  if (_count self <? 1)%Z then raise (StatsException (_need1ErrStr "maximum"))
  else ret (_maximum self).

(** [Stats.mean] *)
Definition mean : M R :=
  do self <- get ;
  if (_count self <? 1)%Z then raise (StatsException (_need1ErrStr "mean"))
  else
    do q <- lift (py_div (_Ex self) (IZR (_count self))) ;
    ret (_K self + q).

(** [Stats.var], in exact arithmetic; the overflow of [_Ex * _Ex] in
    binary64 is the matter of [Float64.var]. *)
Definition var : M R :=
  do self <- get ;
  if (_count self <? 2)%Z then raise (StatsException (_need2ErrStr "variance"))
  else
    do q <- lift (py_div (_Ex self * _Ex self) (IZR (_count self))) ;
    lift (py_div (_Ex2 self - q) (IZR (_count self - 1))).

(** [Stats.stddev] *)
Definition stddev : M R :=
  do self <- get ;
  if (_count self <? 2)%Z then raise (StatsException (_need2ErrStr "stddev"))
  else
    do v <- var ;
    lift (math_sqrt v).

(** [Stats.stderr] *)
Definition stderr : M R :=
  do self <- get ;
  if (_count self <? 2)%Z then raise (StatsException (_need2ErrStr "stderr"))
  else
    do v <- var ;
    do self <- get ;
    do q <- lift (py_div v (IZR (_count self))) ;
    lift (math_sqrt q).

(** [Stats.Z] *)
Definition Z (p : R) : result R :=
  let q := if Rgt_dec p 0.5 then 1 - p else p in
  try l <- math_log q ;
  try z1 <- math_sqrt (-2.0 * l) ;
  let n := (0.010328 * z1 + 0.802853) * z1 + 2.515517 in
  let d := ((0.0013080 * z1 + 0.189269) * z1 + 1.43278) * z1 + 1 in
  try nd <- py_div n d ;
  let z1 := z1 - nd in
  let z1 := if Rgt_dec p 0.5 then - z1 else z1 in
  Ok z1.

(** The loop [for i in 3, 2, 1, 0: x = (x + h[i]) / ndf] of [Stats.T]. *)
Fixpoint T_loop (h : list R) (ndf : int) (idx : list nat) (x : R) : result R :=
  match idx with
  | [] => Ok x
  | i :: idx' =>
      try x' <- py_div_int (x + nth i h 0) ndf ;
      T_loop h ndf idx' x'
  end.

(** [Stats.T]; [ndf] is an [int] of the caller, converted to a float at
    each division. *)
Definition T (p : R) (ndf : int) : result R :=
  let x := 0.0 in
  try z <- Z p ;
  let z1 := math_fabs z in
  let z2 := z1 * z1 in
  let h0 := 0.25 * z1 * (z2 + 1.0) in
  let h1 := 0.010416667 * z1 * ((5.0 * z2 + 16.0) * z2 + 3.0) in
  let h2 := 0.002604167 * z1 * ((3.0 * z2 + 19.0) * z2 - 15.0) in
  let h3 :=
    z1 * ((((79.0 * z2 + 776.0) * z2 + 1482.0) * z2 - 1920.0) * z2 - 945.0) in
  let h3 := h3 * 0.000010851 in
  let h := [h0; h1; h2; h3] in
  try x <- T_loop h ndf [3; 2; 1; 0]%nat x ;
  let z1 := z1 + x in
  let z1 := if Rgt_dec p 0.5 then - z1 else z1 in
  Ok z1.

(** [Stats.conf]; [centered] is exact here, and rounded in
    [Float64.conf]. *)
Definition conf (level : R) : M R :=
  do self <- get ;
  if (_count self <? 2)%Z
  then raise (StatsException (_need2ErrStr "confidence interval"))
  else
    let centered := (1.0 - level) / 2 in
    do fudge <-
      (if ((_count self >? 1)%Z && (_count self <? 30)%Z)%bool
       then lift (T centered (_count self - 1))
       else lift (Z centered)) ;
    do se <- stderr ;
    ret (fudge * se).

End StatsM.

(** ** Running methods *)

(** The value a call returns (or the exception it raises). *)
Definition outcome {A : Type} (m : M A) (self : Stats) : result A := fst (m self).

(** The state a call leaves the object in. *)
Definition after {A : Type} (m : M A) (self : Stats) : Stats := snd (m self).

(** The object after [add] has been called on each value of [xs] in turn. *)
Definition add_all (xs : list R) (self : Stats) : Stats :=
  fold_left (fun s v => after (StatsM.add v) s) xs self.

(** The configuration [reset] writes. *)
Definition empty_stats : Stats := mkStats 0 PosInf NegInf 0 0 0 0.

(** The public methods, as calls with their arguments. *)
Inductive call : Type :=
| CallAdd (value : R)
| CallRemove (value : R)
| CallReset
| CallCount
| CallSum
| CallMin
| CallMax
| CallMean
| CallVar
| CallStddev
| CallStderr
| CallConf (level : R).

(** The state after a call, whatever it returned or raised. *)
Definition step (c : call) (self : Stats) : Stats :=
  match c with
  | CallAdd v => after (StatsM.add v) self
  | CallRemove v => after (StatsM.remove v) self
  | CallReset => after StatsM.reset self
  | CallCount => after StatsM.count self
  | CallSum => after StatsM.sum self
  | CallMin => after StatsM.min self
  | CallMax => after StatsM.max self
  | CallMean => after StatsM.mean self
  | CallVar => after StatsM.var self
  | CallStddev => after StatsM.stddev self
  | CallStderr => after StatsM.stderr self
  | CallConf level => after (StatsM.conf level) self
  end.

(** The states an object can be in: constructed, then any calls. *)
Inductive reachable : Stats -> Prop :=
| reachable_init : forall blank, reachable (after StatsM.__init__ blank)
| reachable_step : forall c self, reachable self -> reachable (step c self).

(** ** Reference statistics of a list of values *)

Definition Rsum (xs : list R) : R := fold_right Rplus 0 xs.

Definition len (xs : list R) : R := IZR (Z.of_nat (List.length xs)).

(** Arithmetic mean: the sum divided by the number of values. *)
Definition ref_mean (xs : list R) : R := Rsum xs / len xs.

(** Sample variance: sum over i of (x_i - mean)^2 divided by (n - 1). *)
Definition ref_var (xs : list R) : R :=
  Rsum (map (fun x => (x - ref_mean xs) * (x - ref_mean xs)) xs) / (len xs - 1).

(** ** The error kinds of the interface

    The class raises one exception type, [StatsException], and tells the
    kinds apart by the message only. *)

(** A derived statistic was asked for with fewer than [required] samples. *)
Definition InsufficientSamples (required : int) (e : exn) : Prop :=
  exists op : string,
    (required = 1%Z /\ e = StatsException (_need1ErrStr op)) \/
    (required = 2%Z /\ e = StatsException (_need2ErrStr op)).

(** Removal is not implemented. *)
Definition Unsupported (e : exn) : Prop :=
  e = StatsException "the removal of values is not implemented".

(** ** Auxiliary notions *)

(** A method that leaves [self] as it found it. *)
Definition readonly {A : Type} (m : M A) : Prop := forall self, after m self = self.

(** [m] is the least element of [l]. *)
Definition least (m : R) (l : list R) : Prop :=
  In m l /\ forall y, In y l -> m <= y.

(** [m] is the greatest element of [l]. *)
Definition greatest (m : R) (l : list R) : Prop :=
  In m l /\ forall y, In y l -> y <= m.

(** The initial configuration of the data model: minimum = +inf,
    maximum = -inf, anchor = 0, centeredSum = centeredSumSq = sum = 0. *)
Definition initial_configuration (s : Stats) : Prop :=
  _minimum s = PosInf /\ _maximum s = NegInf /\ _K s = 0 /\
  _Ex s = 0 /\ _Ex2 s = 0 /\ _sum s = 0.

(** ** The quantile approximations without their error checks

    The values [Stats.Z] and [Stats.T] return when no exception is raised,
    written as plain expressions for the proofs. *)

(** The tail [q] that [Z] takes the logarithm of. *)
Definition Z_tail (p : R) : R := if Rgt_dec p 0.5 then 1 - p else p.

Definition Z_num (z1 : R) : R := (0.010328 * z1 + 0.802853) * z1 + 2.515517.

Definition Z_den (z1 : R) : R :=
  ((0.0013080 * z1 + 0.189269) * z1 + 1.43278) * z1 + 1.

(** The rational approximation on the lower tail [q <= 0.5]. *)
Definition Z_lower (q : R) : R :=
  let z1 := sqrt (-2.0 * ln q) in
  z1 - Z_num z1 / Z_den z1.

(** The four correction terms of [T], for [z1 = |Z(p)|]. *)
Definition T_terms (z1 : R) : list R :=
  let z2 := z1 * z1 in
  [ 0.25 * z1 * (z2 + 1.0);
    0.010416667 * z1 * ((5.0 * z2 + 16.0) * z2 + 3.0);
    0.002604167 * z1 * ((3.0 * z2 + 19.0) * z2 - 15.0);
    z1 * ((((79.0 * z2 + 776.0) * z2 + 1482.0) * z2 - 1920.0) * z2 - 945.0)
    * 0.000010851 ].

(** The magnitude [T] computes from [z = Z(p)] before it restores the sign. *)
Definition T_upper (z : R) (ndf : int) : R :=
  let z1 := Rabs z in
  let h := T_terms z1 in
  let n := IZR ndf in
  z1 + ((((0.0 + nth 3 h 0) / n + nth 2 h 0) / n + nth 1 h 0) / n + nth 0 h 0) / n.

(** ** Outcomes of a guarded query *)

(** The call fails with [InsufficientSamples] and leaves [self] alone. *)
Definition raises_insufficient {A : Type} (m : M A) (required : int)
    (self : Stats) : Prop :=
  exists e, InsufficientSamples required e /\ m self = (Raise e, self).

(** The call returns a value and leaves [self] alone. *)
Definition returns_value {A : Type} (m : M A) (self : Stats) : Prop :=
  exists v, m self = (Ok v, self).

(** The query fails with [InsufficientSamples] exactly when the count is
    below [required], and returns a value otherwise. *)
Definition guarded {A : Type} (m : M A) (required : int) (self : Stats) : Prop :=
  (raises_insufficient m required self <-> (_count self < required)%Z) /\
  (returns_value m self <-> (required <= _count self)%Z).

(** ** Fixed-point arithmetic for a bound on ln 2

    Integers stand for the reals [c / fx_scale]; squaring rounds down, so a
    chain of squarings bounds a power from below. *)

Definition fx_scale : int := (10 ^ 30)%Z.

Definition fx_sq (c : int) : int := (c * c / fx_scale)%Z.

(** [1 + 0.6931473 / 2^24], rounded down. *)
Definition fx_start : int :=
  (fx_scale + fx_scale * 6931473 / (10 ^ 7 * 2 ^ 24))%Z.

(** [1 - 0.693147 / 2^24], rounded down. *)
Definition fx_start_neg : int :=
  (fx_scale - (fx_scale * 693147 / (10 ^ 6 * 2 ^ 24) + 1))%Z.

(** ** Antisymmetry of the quantile approximations *)

(** [Z(p) == -Z(1-p)] and [T(p, ndf) == -T(1-p, ndf)], both sides returning
    a value. *)
Definition antisymmetric_at (p : R) (ndf : int) : Prop :=
  (exists z, StatsM.Z p = Ok z /\ StatsM.Z (1 - p) = Ok (- z)) /\
  (exists t, StatsM.T p ndf = Ok t /\ StatsM.T (1 - p) ndf = Ok (- t)).

(** ** Call sequences *)

(** The object after the calls [cs], made in order. *)
Definition run (cs : list call) (self : Stats) : Stats :=
  fold_left (fun s c => step c s) cs self.

(** The values added by [cs] after its last [reset] or [remove], in order,
    following the values [acc] added before [cs]. *)
Fixpoint pending_from (acc : list R) (cs : list call) : list R :=
  match cs with
  | [] => acc
  | CallAdd v :: cs' => pending_from (acc ++ [v]) cs'
  | CallRemove _ :: cs' => pending_from [] cs'
  | CallReset :: cs' => pending_from [] cs'
  | _ :: cs' => pending_from acc cs'
  end.

Definition pending (cs : list call) : list R := pending_from [] cs.

(** ** The class in binary64

    The same methods over primitive binary64 floats, to settle what the
    class returns or raises where rounding or overflow decides it.  The
    arithmetic operators of Python's [float] are the IEEE 754 operations;
    only a division by zero raises.  [math.log] of a positive number is the
    C library's [log], taken as a parameter. *)

Module Float64.

Import PrimFloat.
#[local] Open Scope float_scope.
#[local] Set Warnings "-inexact-float,-notation-overridden".

(** The conversion of an [int] operand to [float]: rounded to nearest, ties
    to even; [OverflowError] when the result is out of range. *)
Definition float_of_int (n : int) : result float :=
  let f := FloatOps.SF2Prim
             (SpecFloat.binary_normalize FloatOps.prec FloatOps.emax n 0 false) in
  if is_infinity f then Raise OverflowError else Ok f.

(** [a / b] on floats: raises on a zero divisor, of either sign. *)
Definition py_div (a b : float) : result float :=
  if b =? 0 then Raise ZeroDivisionError else Ok (a / b).

(** [a / n] for a float [a] and an int [n]: the int is converted first. *)
Definition py_div_int (a : float) (n : int) : result float :=
  try b <- float_of_int n ;
  py_div a b.

(** [math.sqrt]: raises [ValueError] on a negative argument. *)
Definition math_sqrt (x : float) : result float :=
  if x <? 0 then Raise ValueError else Ok (sqrt x).

(** [math.fabs] *)
Definition math_fabs (x : float) : float := abs x.

(** [min(a, v)] and [max(a, v)]: the first argument unless the second is
    strictly smaller, respectively larger. *)
Definition py_min (a v : float) : float := if v <? a then v else a.
Definition py_max (a v : float) : float := if a <? v then v else a.

Record Stats : Type := mkStats {
  _count : int;
  _minimum : float;
  _maximum : float;
  _K : float;
  _Ex : float;
  _Ex2 : float;
  _sum : float
}.

Definition set_count (v : int) (s : Stats) : Stats :=
  mkStats v (_minimum s) (_maximum s) (_K s) (_Ex s) (_Ex2 s) (_sum s).
Definition set_minimum (v : float) (s : Stats) : Stats :=
  mkStats (_count s) v (_maximum s) (_K s) (_Ex s) (_Ex2 s) (_sum s).
Definition set_maximum (v : float) (s : Stats) : Stats :=
  mkStats (_count s) (_minimum s) v (_K s) (_Ex s) (_Ex2 s) (_sum s).
Definition set_K (v : float) (s : Stats) : Stats :=
  mkStats (_count s) (_minimum s) (_maximum s) v (_Ex s) (_Ex2 s) (_sum s).
Definition set_Ex (v : float) (s : Stats) : Stats :=
  mkStats (_count s) (_minimum s) (_maximum s) (_K s) v (_Ex2 s) (_sum s).
Definition set_Ex2 (v : float) (s : Stats) : Stats :=
  mkStats (_count s) (_minimum s) (_maximum s) (_K s) (_Ex s) v (_sum s).
Definition set_sum (v : float) (s : Stats) : Stats :=
  mkStats (_count s) (_minimum s) (_maximum s) (_K s) (_Ex s) (_Ex2 s) v.

(** A method body on the binary64 object. *)
Definition M (A : Type) : Type := Stats -> result A * Stats.

Definition ret {A : Type} (a : A) : M A := fun self => (Ok a, self).
Definition raise {A : Type} (e : exn) : M A := fun self => (Raise e, self).
Definition get : M Stats := fun self => (Ok self, self).
Definition modify (f : Stats -> Stats) : M unit := fun self => (Ok tt, f self).
Definition lift {A : Type} (r : result A) : M A := fun self => (r, self).
Definition bind {A B : Type} (m : M A) (k : A -> M B) : M B :=
  fun self =>
    match m self with
    | (Ok a, self') => k a self'
    | (Raise e, self') => (Raise e, self')
    end.

#[local] Notation "'do' x <- e ; k" := (bind e (fun x => k))
  (at level 10, x name, e at level 100, k at level 200).
#[local] Notation "e ;; k" := (bind e (fun _ => k))
  (at level 100, k at level 200, right associativity).

(** [Stats.reset] *)
Definition reset : M unit :=
  modify (set_count 0) ;;
  modify (set_minimum infinity) ;;
  modify (set_maximum (- infinity)) ;;
  modify (set_K 0.0) ;;
  modify (set_Ex 0.0) ;;
  modify (set_Ex2 0.0) ;;
  modify (set_sum 0.0).

(** [Stats.__init__] *)
Definition __init__ : M unit := reset.

(** [Stats.add] *)
Definition add (value : float) : M unit :=
  modify (fun self => set_minimum (py_min (_minimum self) value) self) ;;
  modify (fun self => set_maximum (py_max (_maximum self) value) self) ;;
  do self <- get ;
  (if (_count self =? 0)%Z then modify (set_K value) else ret tt) ;;
  modify (fun self => set_count (_count self + 1)%Z self) ;;
  modify (fun self => set_Ex (_Ex self + (value - _K self)) self) ;;
  modify (fun self =>
            set_Ex2 (_Ex2 self + (value - _K self) * (value - _K self)) self) ;;
  modify (fun self => set_sum (_sum self + value) self).

(** [Stats.remove] *)
Definition remove (value : float) : M unit :=
  reset ;;
  raise (StatsException "the removal of values is not implemented").

(** [Stats.count] *)
Definition count : M int :=
  do self <- get ;
  ret (_count self).

(** [Stats.sum] *)
Definition sum : M float :=
  do self <- get ;
  if (_count self <? 1)%Z then raise (StatsException (_need1ErrStr "sum"))
  else ret (_sum self).

(** [Stats.min] *)
Definition min : M float :=
  do self <- get ;
  if (_count self <? 1)%Z then raise (StatsException (_need1ErrStr "minimum"))
  else ret (_minimum self).

(** [Stats.max] *)
Definition max : M float :=
  do self <- get ;
  if (_count self <? 1)%Z then raise (StatsException (_need1ErrStr "maximum"))
  else ret (_maximum self).

(** [Stats.mean] *)
Definition mean : M float :=
  do self <- get ;
  if (_count self <? 1)%Z then raise (StatsException (_need1ErrStr "mean"))
  else
    do q <- lift (py_div_int (_Ex self) (_count self)) ;
    ret (_K self + q).

(** [Stats.var] *)
Definition var : M float :=
  do self <- get ;
  if (_count self <? 2)%Z then raise (StatsException (_need2ErrStr "variance"))
  else
    do q <- lift (py_div_int (_Ex self * _Ex self) (_count self)) ;
    lift (py_div_int (_Ex2 self - q) (_count self - 1)%Z).

(** [Stats.stddev] *)
Definition stddev : M float :=
  do self <- get ;
  if (_count self <? 2)%Z then raise (StatsException (_need2ErrStr "stddev"))
  else
    do v <- var ;
    lift (math_sqrt v).

(** [Stats.stderr] *)
Definition stderr : M float :=
  do self <- get ;
  if (_count self <? 2)%Z then raise (StatsException (_need2ErrStr "stderr"))
  else
    do v <- var ;
    do self <- get ;
    do q <- lift (py_div_int v (_count self)) ;
    lift (math_sqrt q).

Section Quantiles.

(** The C library's [log], which [math.log] calls on positive arguments. *)
Variable libm_log : float -> float.

(** [math.log]: raises [ValueError] on a non-positive argument. *)
Definition math_log (x : float) : result float :=
  if x <=? 0 then Raise ValueError else Ok (libm_log x).

(** [Stats.Z] *)
Definition Z (p : float) : result float :=
  let q := if 0.5 <? p then 1 - p else p in
  try l <- math_log q ;
  try z1 <- math_sqrt (-2.0 * l) ;
  let n := (0.010328 * z1 + 0.802853) * z1 + 2.515517 in
  let d := ((0.0013080 * z1 + 0.189269) * z1 + 1.43278) * z1 + 1 in
  try nd <- py_div n d ;
  let z1 := z1 - nd in
  let z1 := if 0.5 <? p then - z1 else z1 in
  Ok z1.

(** The loop [for i in 3, 2, 1, 0: x = (x + h[i]) / ndf] of [Stats.T]. *)
Fixpoint T_loop (h : list float) (ndf : int) (idx : list nat) (x : float)
    : result float :=
  match idx with
  | [] => Ok x
  | i :: idx' =>
      try x' <- py_div_int (x + nth i h 0) ndf ;
      T_loop h ndf idx' x'
  end.

(** [Stats.T] *)
Definition T (p : float) (ndf : int) : result float :=
  let x := 0.0 in
  try z <- Z p ;
  let z1 := math_fabs z in
  let z2 := z1 * z1 in
  let h0 := 0.25 * z1 * (z2 + 1.0) in
  let h1 := 0.010416667 * z1 * ((5.0 * z2 + 16.0) * z2 + 3.0) in
  let h2 := 0.002604167 * z1 * ((3.0 * z2 + 19.0) * z2 - 15.0) in
  let h3 :=
    z1 * ((((79.0 * z2 + 776.0) * z2 + 1482.0) * z2 - 1920.0) * z2 - 945.0) in
  let h3 := h3 * 0.000010851 in
  let h := [h0; h1; h2; h3] in
  try x <- T_loop h ndf [3; 2; 1; 0]%nat x ;
  let z1 := z1 + x in
  let z1 := if 0.5 <? p then - z1 else z1 in
  Ok z1.

(** [Stats.conf] *)
Definition conf (level : float) : M float :=
  do self <- get ;
  if (_count self <? 2)%Z
  then raise (StatsException (_need2ErrStr "confidence interval"))
  else
    let centered := (1.0 - level) / 2 in
    do fudge <-
      (if ((_count self >? 1)%Z && (_count self <? 30)%Z)%bool
       then lift (T centered (_count self - 1)%Z)
       else lift (Z centered)) ;
    do se <- stderr ;
    ret (fudge * se).

End Quantiles.

(** The value a call returns (or the exception it raises). *)
Definition outcome {A : Type} (m : M A) (self : Stats) : result A := fst (m self).

(** The state a call leaves the object in. *)
Definition after {A : Type} (m : M A) (self : Stats) : Stats := snd (m self).

(** The object after [add] has been called on each value of [xs] in turn. *)
Definition add_all (xs : list float) (self : Stats) : Stats :=
  fold_left (fun s v => after (add v) s) xs self.

(** A new object. *)
Definition new : Stats :=
  after __init__ (mkStats 0 0 0 0 0 0 0).

(** Three finite values whose centred sum squares to more than the largest
    float. *)
Definition overflowing : list float := [0.0; 9e153; 9e153].

(** The object after they have been added to a new one. *)
Definition overflowed : Stats := add_all overflowing new.

(** The mirror argument [1 - p] as a caller computes it. *)
Definition mirror (p : float) : float := 1 - p.

(** Some arguments. *)
Definition level_95 : float := 0.95.
Definition half : float := 0.5.
Definition tiny_tail : float := 1e-17.
Definition below_half : float := 0.5 - 0x1p-54.

(** The data of the unit test [test_addMany] and the statistics expected. *)
Definition one_to_four : list float := [1.0; 2.0; 3.0; 4.0].
Definition expected_mean : float := 2.5.
Definition expected_var : float := 5.0 / 3.0.
Definition expected_stddev : float := sqrt (5.0 / 3.0).

End Float64.

(** The value [var()] computes from the state. *)
Definition var_formula (self : Stats) : R :=
  (_Ex2 self - _Ex self * _Ex self / IZR (_count self)) / IZR (_count self - 1).

(** ** Outcomes of a query that takes a square root *)

(** The query fails with [InsufficientSamples] exactly when the count is
    below 2; with two samples or more it returns a value or raises
    [math.sqrt]'s [ValueError], and it returns a value whenever the variance
    that [var()] computes is not negative. *)
Definition guarded_sqrt {A : Type} (m : M A) (self : Stats) : Prop :=
  (raises_insufficient m 2 self <-> (_count self < 2)%Z) /\
  ((2 <= _count self)%Z ->
   (returns_value m self \/ m self = (Raise ValueError, self)) /\
   (forall v, StatsM.var self = (Ok v, self) -> 0 <= v -> returns_value m self)).

(** [Z(q) == -Z(p)] and [T(q, ndf) == -T(p, ndf)], both sides returning a
    value, for an argument [p] and its mirror [q]. *)
Definition mirror_antisymmetric (p q : R) (ndf : int) : Prop :=
  (exists z, StatsM.Z p = Ok z /\ StatsM.Z q = Ok (- z)) /\
  (exists t, StatsM.T p ndf = Ok t /\ StatsM.T q ndf = Ok (- t)).

(** * Properties *)

(** ** Basic facts about the methods *)

Lemma reset_run (self : Stats) : StatsM.reset self = (Ok tt, empty_stats).
Proof. reflexivity. Qed.

Lemma add_run (value : R) (self : Stats) :
  StatsM.add value self =
  (Ok tt,
   let K := if (_count self =? 0)%Z then value else _K self in
   mkStats (_count self + 1)
           (py_min (_minimum self) value)
           (py_max (_maximum self) value)
           K
           (_Ex self + (value - K))
           (_Ex2 self + (value - K) * (value - K))
           (_sum self + value)).
Proof.
  unfold StatsM.add, bind, modify, get, ret; cbn.
  destruct (_count self =? 0)%Z; reflexivity.
Qed.

Lemma after_add (value : R) (self : Stats) :
  after (StatsM.add value) self =
   let K := if (_count self =? 0)%Z then value else _K self in
   mkStats (_count self + 1)
           (py_min (_minimum self) value)
           (py_max (_maximum self) value)
           K
           (_Ex self + (value - K))
           (_Ex2 self + (value - K) * (value - K))
           (_sum self + value).
Proof. unfold after. rewrite add_run. reflexivity. Qed.

Lemma add_all_cons (x : R) (xs : list R) (self : Stats) :
  add_all (x :: xs) self = add_all xs (after (StatsM.add x) self).
Proof. reflexivity. Qed.

Lemma add_all_app (xs ys : list R) (self : Stats) :
  add_all (xs ++ ys) self = add_all ys (add_all xs self).
Proof. unfold add_all. apply fold_left_app. Qed.

(** ** Sums over lists *)

Lemma len_nil : len [] = 0.
Proof. reflexivity. Qed.

Lemma len_cons (x : R) (xs : list R) : len (x :: xs) = len xs + 1.
Proof.
  unfold len. cbn [List.length]. rewrite Nat2Z.inj_succ, succ_IZR. reflexivity.
Qed.

Lemma len_nonneg (xs : list R) : 0 <= len xs.
Proof. unfold len. apply IZR_le. lia. Qed.

Lemma len_perm (xs ys : list R) : Permutation xs ys -> len xs = len ys.
Proof. intros H. unfold len. rewrite (Permutation_length H). reflexivity. Qed.

Lemma Rsum_cons (x : R) (xs : list R) : Rsum (x :: xs) = x + Rsum xs.
Proof. reflexivity. Qed.

Lemma Rsum_perm (xs ys : list R) : Permutation xs ys -> Rsum xs = Rsum ys.
Proof.
  induction 1 as [| x l l' _ IH | x y l | l l' l'' _ IH1 _ IH2].
  - reflexivity.
  - rewrite !Rsum_cons, IH. reflexivity.
  - rewrite !Rsum_cons. ring.
  - congruence.
Qed.

(** Sum of the deviations from an arbitrary centre [k]. *)
Lemma Rsum_shift (k : R) (xs : list R) :
  Rsum (map (fun x => x - k) xs) = Rsum xs - len xs * k.
Proof.
  induction xs as [| x xs IH].
  - cbn. rewrite len_nil. ring.
  - cbn [map]. rewrite !Rsum_cons, IH, len_cons. ring.
Qed.

(** Sum of squared deviations from [c], expressed through the deviations
    from another centre [k]. *)
Lemma Rsum_sq_shift (c k : R) (xs : list R) :
  Rsum (map (fun x => (x - c) * (x - c)) xs) =
  Rsum (map (fun x => (x - k) * (x - k)) xs)
  - 2 * (c - k) * Rsum (map (fun x => x - k) xs)
  + len xs * ((c - k) * (c - k)).
Proof.
  induction xs as [| x xs IH].
  - cbn. rewrite len_nil. ring.
  - cbn [map]. rewrite !Rsum_cons, IH, len_cons. ring.
Qed.

Lemma Rsum_sq_nonneg (c : R) (xs : list R) :
  0 <= Rsum (map (fun x => (x - c) * (x - c)) xs).
Proof.
  induction xs as [| x xs IH]; cbn [map].
  - cbn. lra.
  - rewrite Rsum_cons. pose proof (Rle_0_sqr (x - c)) as H. unfold Rsqr in H. lra.
Qed.

(** ** The state after a run of [add] calls *)

(** Once the anchor is fixed, every field is a fold over the values added. *)
Lemma add_all_anchored (xs : list R) (self : Stats) :
  (0 < _count self)%Z ->
  _count (add_all xs self) = (_count self + Z.of_nat (List.length xs))%Z /\
  _minimum (add_all xs self) = fold_left py_min xs (_minimum self) /\
  _maximum (add_all xs self) = fold_left py_max xs (_maximum self) /\
  _K (add_all xs self) = _K self /\
  _Ex (add_all xs self) = _Ex self + Rsum (map (fun x => x - _K self) xs) /\
  _Ex2 (add_all xs self) =
    _Ex2 self + Rsum (map (fun x => (x - _K self) * (x - _K self)) xs) /\
  _sum (add_all xs self) = _sum self + Rsum xs.
Proof.
  revert self. induction xs as [| x xs IH]; intros self Hpos.
  - cbn. repeat split; try ring; try lia.
  - rewrite add_all_cons.
    assert (Hne : (_count self =? 0)%Z = false) by (apply Z.eqb_neq; lia).
    rewrite after_add. cbn zeta. rewrite Hne.
    match goal with |- context [add_all xs ?s] =>
      destruct (IH s) as (Hc & Hmin & Hmax & HK & HEx & HEx2 & Hsum);
      [cbn; lia |]
    end.
    cbn [_count _minimum _maximum _K _Ex _Ex2 _sum] in Hc, Hmin, Hmax, HK, HEx, HEx2, Hsum.
    rewrite Hc, Hmin, Hmax, HK, HEx, HEx2, Hsum.
    cbn [map fold_left List.length]. rewrite !Rsum_cons.
    repeat split; try ring; try lia.
Qed.

(** The state after adding [x :: xs] to an empty accumulator: the anchor is
    the first value. *)
Lemma add_all_empty (x : R) (xs : list R) :
  let s := add_all (x :: xs) empty_stats in
  _count s = Z.of_nat (List.length (x :: xs)) /\
  _minimum s = fold_left py_min xs (Fin x) /\
  _maximum s = fold_left py_max xs (Fin x) /\
  _K s = x /\
  _Ex s = Rsum (map (fun y => y - x) (x :: xs)) /\
  _Ex2 s = Rsum (map (fun y => (y - x) * (y - x)) (x :: xs)) /\
  _sum s = Rsum (x :: xs).
Proof.
  cbn zeta. rewrite add_all_cons.
  rewrite after_add. cbn.
  match goal with |- context [add_all xs ?s] =>
    destruct (add_all_anchored xs s) as (Hc & Hmin & Hmax & HK & HEx & HEx2 & Hsum);
    [cbn; lia |]
  end.
  cbn [_count _minimum _maximum _K _Ex _Ex2 _sum] in Hc, Hmin, Hmax, HK, HEx, HEx2, Hsum.
  rewrite Hc, Hmin, Hmax, HK, HEx, HEx2, Hsum.
  unfold Rsum. cbn [map fold_right List.length].
  repeat split; try ring; try lia.
Qed.

(** ** Queries do not write to the object *)

Lemma readonly_ret {A : Type} (a : A) : readonly (ret a).
Proof. intro; reflexivity. Qed.

Lemma readonly_raise {A : Type} (e : exn) : readonly (@raise A e).
Proof. intro; reflexivity. Qed.

Lemma readonly_get : readonly get.
Proof. intro; reflexivity. Qed.

Lemma readonly_lift {A : Type} (r : result A) : readonly (lift r).
Proof. intro; reflexivity. Qed.

Lemma readonly_bind {A B : Type} (m : M A) (k : A -> M B) :
  readonly m -> (forall a, readonly (k a)) -> readonly (bind m k).
Proof.
  intros Hm Hk self. unfold after, bind.
  specialize (Hm self). unfold after in Hm.
  destruct (m self) as [[a | e] self']; cbn in Hm; subst self'.
  - apply Hk.
  - reflexivity.
Qed.

Lemma readonly_if {A : Type} (b : bool) (m1 m2 : M A) :
  readonly m1 -> readonly m2 -> readonly (if b then m1 else m2).
Proof. destruct b; auto. Qed.

Create HintDb readonly.
#[local] Hint Resolve readonly_ret readonly_raise readonly_get readonly_lift
  readonly_if : readonly.
#[local] Hint Extern 2 (readonly (bind _ _)) =>
  apply readonly_bind; [| intro] : readonly.

Lemma readonly_count : readonly StatsM.count.
Proof. unfold StatsM.count; auto with readonly. Qed.

Lemma readonly_sum : readonly StatsM.sum.
Proof. unfold StatsM.sum; auto with readonly. Qed.

Lemma readonly_min : readonly StatsM.min.
Proof. unfold StatsM.min; auto with readonly. Qed.

Lemma readonly_max : readonly StatsM.max.
Proof. unfold StatsM.max; auto with readonly. Qed.

Lemma readonly_mean : readonly StatsM.mean.
Proof. unfold StatsM.mean; auto 6 with readonly. Qed.

Lemma readonly_var : readonly StatsM.var.
Proof. unfold StatsM.var; auto 6 with readonly. Qed.

#[local] Hint Resolve readonly_var : readonly.

Lemma readonly_stddev : readonly StatsM.stddev.
Proof. unfold StatsM.stddev; auto 6 with readonly. Qed.

Lemma readonly_stderr : readonly StatsM.stderr.
Proof. unfold StatsM.stderr; auto 8 with readonly. Qed.

#[local] Hint Resolve readonly_stderr : readonly.

Lemma readonly_conf (level : R) : readonly (StatsM.conf level).
Proof. unfold StatsM.conf; auto 8 with readonly. Qed.

(** ** Reachable states *)

Lemma after_reset (self : Stats) : after StatsM.reset self = empty_stats.
Proof. reflexivity. Qed.

Lemma after_remove (value : R) (self : Stats) :
  after (StatsM.remove value) self = empty_stats.
Proof. reflexivity. Qed.

(** A reachable state is the empty one with some values added to it. *)
Lemma reachable_add_all (self : Stats) :
  reachable self <-> exists xs, self = add_all xs empty_stats.
Proof.
  split.
  - induction 1 as [blank | c self _ [xs ->]].
    + exists []. reflexivity.
    + destruct c; cbn [step];
        try (exists []; reflexivity);
        try (exists xs;
             first [ apply readonly_count | apply readonly_sum | apply readonly_min
                   | apply readonly_max | apply readonly_mean | apply readonly_var
                   | apply readonly_stddev | apply readonly_stderr
                   | apply readonly_conf ]).
      exists (xs ++ [value]). rewrite add_all_app. reflexivity.
  - intros [xs ->].
    induction xs as [| x xs IH] using rev_ind.
    + apply (reachable_init empty_stats).
    + rewrite add_all_app. apply (reachable_step (CallAdd x)). exact IH.
Qed.

Lemma py_div_ok (a b : R) : b <> 0 -> py_div a b = Ok (a / b).
Proof. intros H. unfold py_div. destruct (Req_dec_T b 0); [contradiction | reflexivity]. Qed.

Lemma math_sqrt_ok (x : R) : 0 <= x -> math_sqrt x = Ok (sqrt x).
Proof. intros H. unfold math_sqrt. destruct (Rlt_dec x 0); [lra | reflexivity]. Qed.

Lemma math_log_ok (x : R) : 0 < x -> math_log x = Ok (ln x).
Proof. intros H. unfold math_log. destruct (Rle_dec x 0); [lra | reflexivity]. Qed.

(** ** What the queries return *)

Lemma count_run (self : Stats) : StatsM.count self = (Ok (_count self), self).
Proof. reflexivity. Qed.

Lemma sum_run (self : Stats) :
  (1 <= _count self)%Z -> StatsM.sum self = (Ok (_sum self), self).
Proof.
  intros H. unfold StatsM.sum, bind, get.
  destruct (Z.ltb_spec (_count self) 1); [lia | reflexivity].
Qed.

Lemma min_run (self : Stats) :
  (1 <= _count self)%Z -> StatsM.min self = (Ok (_minimum self), self).
Proof.
  intros H. unfold StatsM.min, bind, get.
  destruct (Z.ltb_spec (_count self) 1); [lia | reflexivity].
Qed.

Lemma max_run (self : Stats) :
  (1 <= _count self)%Z -> StatsM.max self = (Ok (_maximum self), self).
Proof.
  intros H. unfold StatsM.max, bind, get.
  destruct (Z.ltb_spec (_count self) 1); [lia | reflexivity].
Qed.

Lemma mean_run (self : Stats) :
  (1 <= _count self)%Z ->
  StatsM.mean self = (Ok (_K self + _Ex self / IZR (_count self)), self).
Proof.
  intros H. unfold StatsM.mean, bind, get, lift, ret.
  destruct (Z.ltb_spec (_count self) 1); [lia |].
  rewrite py_div_ok; [reflexivity |].
  apply not_0_IZR. lia.
Qed.

Lemma var_run (self : Stats) :
  (2 <= _count self)%Z ->
  StatsM.var self =
  (Ok ((_Ex2 self - _Ex self * _Ex self / IZR (_count self))
       / IZR (_count self - 1)), self).
Proof.
  intros H. unfold StatsM.var, bind, get, lift.
  destruct (Z.ltb_spec (_count self) 2); [lia |].
  rewrite py_div_ok by (apply not_0_IZR; lia).
  rewrite py_div_ok by (apply not_0_IZR; lia).
  reflexivity.
Qed.

(** ** Mean and variance against their reference definitions *)

(** The deviation of the reference mean from any centre [k] is the mean of
    the deviations from [k]. *)
Lemma ref_mean_shift (k : R) (xs : list R) :
  len xs <> 0 ->
  ref_mean xs - k = Rsum (map (fun x => x - k) xs) / len xs.
Proof.
  intros Hn. unfold ref_mean. rewrite Rsum_shift. field. exact Hn.
Qed.

(** The shifted-data formula: sum of squared deviations from the mean,
    computed from the sums of deviations from any centre [k]. *)
Lemma shifted_sum_of_squares (k : R) (xs : list R) :
  len xs <> 0 ->
  Rsum (map (fun x => (x - ref_mean xs) * (x - ref_mean xs)) xs) =
  Rsum (map (fun x => (x - k) * (x - k)) xs)
  - Rsum (map (fun x => x - k) xs) * Rsum (map (fun x => x - k) xs) / len xs.
Proof.
  intros Hn.
  rewrite (Rsum_sq_shift (ref_mean xs) k), (ref_mean_shift k xs Hn).
  field. exact Hn.
Qed.

Lemma count_add_all_empty (xs : list R) :
  _count (add_all xs empty_stats) = Z.of_nat (List.length xs).
Proof.
  destruct xs as [| x xs]; [reflexivity |].
  apply (add_all_empty x xs).
Qed.

Lemma IZR_count_add_all_empty (xs : list R) :
  IZR (_count (add_all xs empty_stats)) = len xs.
Proof. rewrite count_add_all_empty. reflexivity. Qed.

Lemma len_ge (xs : list R) (n : nat) :
  (n <= List.length xs)%nat -> INR n <= len xs.
Proof.
  intros H. unfold len. rewrite INR_IZR_INZ. apply IZR_le. lia.
Qed.

(** [mean] on the accumulated state is the reference mean. *)
Lemma mean_formula_ref (xs : list R) :
  xs <> [] ->
  let s := add_all xs empty_stats in
  _K s + _Ex s / IZR (_count s) = ref_mean xs /\
  _sum s / IZR (_count s) = ref_mean xs.
Proof.
  intros Hne. cbn zeta. rewrite IZR_count_add_all_empty.
  destruct xs as [| x xs]; [contradiction |].
  destruct (add_all_empty x xs) as (_ & _ & _ & HK & HEx & _ & Hsum).
  cbn zeta in HK, HEx, Hsum. rewrite HK, HEx, Hsum.
  assert (Hn : len (x :: xs) <> 0).
  { pose proof (len_ge (x :: xs) 1) as H. cbn in H. specialize (H ltac:(lia)). lra. }
  split; [| reflexivity].
  rewrite <- (ref_mean_shift x (x :: xs) Hn). ring.
Qed.

(** [var] on the accumulated state is the reference sample variance. *)
Lemma var_formula_ref (xs : list R) :
  (2 <= List.length xs)%nat ->
  let s := add_all xs empty_stats in
  (_Ex2 s - _Ex s * _Ex s / IZR (_count s)) / IZR (_count s - 1) = ref_var xs.
Proof.
  intros Hlen. cbn zeta. rewrite minus_IZR, IZR_count_add_all_empty.
  destruct xs as [| x xs]; [cbn in Hlen; lia |].
  destruct (add_all_empty x xs) as (_ & _ & _ & _ & HEx & HEx2 & _).
  cbn zeta in HEx, HEx2. rewrite HEx, HEx2.
  assert (Hn : len (x :: xs) <> 0).
  { pose proof (len_ge (x :: xs) 2 Hlen) as H. cbn in H. lra. }
  unfold ref_var. rewrite (shifted_sum_of_squares x (x :: xs) Hn). reflexivity.
Qed.

(** C1: after values x1..xn (n >= 2) have been added since the last reset,
    [var()] returns (centeredSumSq - centeredSum^2/count) / (count - 1),
    and this value is the reference sample variance, the sum over i of
    (x_i - mean)^2 divided by (n - 1). *)
Theorem C1_var_is_sample_variance (blank : Stats) (xs : list R) :
  (2 <= List.length xs)%nat ->
  let s := add_all xs (after StatsM.reset blank) in
  StatsM.var s =
    (Ok ((_Ex2 s - _Ex s * _Ex s / IZR (_count s)) / IZR (_count s - 1)), s) /\
  (_Ex2 s - _Ex s * _Ex s / IZR (_count s)) / IZR (_count s - 1) = ref_var xs.
Proof.
  intros Hlen. rewrite after_reset. cbn zeta. split.
  - apply var_run. rewrite count_add_all_empty. lia.
  - apply var_formula_ref. exact Hlen.
Qed.

Lemma C1_var_is_sample_variance_witness :
  let s := add_all [1; 2; 3; 4] (after StatsM.reset empty_stats) in
  StatsM.var s =
    (Ok ((_Ex2 s - _Ex s * _Ex s / IZR (_count s)) / IZR (_count s - 1)), s) /\
  (_Ex2 s - _Ex s * _Ex s / IZR (_count s)) / IZR (_count s - 1)
  = ref_var [1; 2; 3; 4].
Proof.
  apply (C1_var_is_sample_variance empty_stats [1; 2; 3; 4]). cbn. lia.
Defined.

(** ** Minimum and maximum *)

Lemma py_min_fin (r v : R) : py_min (Fin r) v = Fin (Rmin r v).
Proof.
  unfold py_min, Rmin.
  destruct (Rlt_dec v r), (Rle_dec r v); try reflexivity; f_equal; lra.
Qed.

Lemma py_max_fin (r v : R) : py_max (Fin r) v = Fin (Rmax r v).
Proof.
  unfold py_max, Rmax.
  destruct (Rgt_dec v r), (Rle_dec r v); try reflexivity; f_equal; lra.
Qed.

Lemma fold_py_min_fin (xs : list R) (a : R) :
  fold_left py_min xs (Fin a) = Fin (fold_left Rmin xs a).
Proof.
  revert a. induction xs as [| x xs IH]; intros a; cbn [fold_left].
  - reflexivity.
  - rewrite py_min_fin. apply IH.
Qed.

Lemma fold_py_max_fin (xs : list R) (a : R) :
  fold_left py_max xs (Fin a) = Fin (fold_left Rmax xs a).
Proof.
  revert a. induction xs as [| x xs IH]; intros a; cbn [fold_left].
  - reflexivity.
  - rewrite py_max_fin. apply IH.
Qed.

Lemma fold_Rmin_least (xs : list R) (a : R) : least (fold_left Rmin xs a) (a :: xs).
Proof.
  revert a. induction xs as [| x xs IH]; intros a; cbn [fold_left].
  - split; [left; reflexivity |]. intros y [<- | []]. lra.
  - destruct (IH (Rmin a x)) as [Hin Hle]. split.
    + destruct Hin as [Heq | Hin].
      * rewrite <- Heq. unfold Rmin. destruct (Rle_dec a x); cbn; auto.
      * right; right; exact Hin.
    + intros y [<- | [<- | Hy]].
      * eapply Rle_trans; [apply Hle; left; reflexivity | apply Rmin_l].
      * eapply Rle_trans; [apply Hle; left; reflexivity | apply Rmin_r].
      * apply Hle. right. exact Hy.
Qed.

Lemma fold_Rmax_greatest (xs : list R) (a : R) :
  greatest (fold_left Rmax xs a) (a :: xs).
Proof.
  revert a. induction xs as [| x xs IH]; intros a; cbn [fold_left].
  - split; [left; reflexivity |]. intros y [<- | []]. lra.
  - destruct (IH (Rmax a x)) as [Hin Hle]. split.
    + destruct Hin as [Heq | Hin].
      * rewrite <- Heq. unfold Rmax. destruct (Rle_dec a x); cbn; auto.
      * right; right; exact Hin.
    + intros y [<- | [<- | Hy]].
      * eapply Rle_trans; [apply Rmax_l | apply Hle; left; reflexivity].
      * eapply Rle_trans; [apply Rmax_r | apply Hle; left; reflexivity].
      * apply Hle. right. exact Hy.
Qed.

Lemma least_unique (m m' : R) (l : list R) : least m l -> least m' l -> m = m'.
Proof. intros [Hi Hl] [Hi' Hl']. apply Rle_antisym; auto. Qed.

Lemma greatest_unique (m m' : R) (l : list R) :
  greatest m l -> greatest m' l -> m = m'.
Proof. intros [Hi Hl] [Hi' Hl']. apply Rle_antisym; auto. Qed.

Lemma least_perm (m : R) (l l' : list R) : Permutation l l' -> least m l -> least m l'.
Proof.
  intros HP [Hi Hl]. split.
  - eapply Permutation_in; eauto.
  - intros y Hy. apply Hl. eapply Permutation_in; [apply Permutation_sym |]; eauto.
Qed.

Lemma greatest_perm (m : R) (l l' : list R) :
  Permutation l l' -> greatest m l -> greatest m l'.
Proof.
  intros HP [Hi Hl]. split.
  - eapply Permutation_in; eauto.
  - intros y Hy. apply Hl. eapply Permutation_in; [apply Permutation_sym |]; eauto.
Qed.

(** The extremes stored after adding a non-empty list are its least and
    greatest elements. *)
Lemma min_max_add_all (xs : list R) :
  xs <> [] ->
  exists lo hi,
    _minimum (add_all xs empty_stats) = Fin lo /\
    _maximum (add_all xs empty_stats) = Fin hi /\
    least lo xs /\ greatest hi xs.
Proof.
  intros Hne. destruct xs as [| x xs]; [contradiction |].
  destruct (add_all_empty x xs) as (_ & Hmin & Hmax & _).
  cbn zeta in Hmin, Hmax.
  exists (fold_left Rmin xs x), (fold_left Rmax xs x).
  rewrite Hmin, Hmax, fold_py_min_fin, fold_py_max_fin.
  repeat split; try apply fold_Rmin_least; apply fold_Rmax_greatest.
Qed.

Lemma Rsum_lower (m : R) (l : list R) :
  (forall y, In y l -> m <= y) -> len l * m <= Rsum l.
Proof.
  induction l as [| x l IH]; intros H.
  - cbn. rewrite len_nil. lra.
  - rewrite len_cons, Rsum_cons.
    assert (m <= x) by (apply H; left; reflexivity).
    assert (len l * m <= Rsum l) by (apply IH; intros; apply H; right; assumption).
    lra.
Qed.

Lemma Rsum_upper (m : R) (l : list R) :
  (forall y, In y l -> y <= m) -> Rsum l <= len l * m.
Proof.
  induction l as [| x l IH]; intros H.
  - cbn. rewrite len_nil. lra.
  - rewrite len_cons, Rsum_cons.
    assert (x <= m) by (apply H; left; reflexivity).
    assert (Rsum l <= len l * m) by (apply IH; intros; apply H; right; assumption).
    lra.
Qed.

Lemma len_pos (xs : list R) : xs <> [] -> 0 < len xs.
Proof.
  intros H. destruct xs as [| x xs]; [contradiction |].
  rewrite len_cons. pose proof (len_nonneg xs). lra.
Qed.

Lemma ref_mean_between (lo hi : R) (xs : list R) :
  xs <> [] -> least lo xs -> greatest hi xs -> lo <= ref_mean xs <= hi.
Proof.
  intros Hne [_ Hlo] [_ Hhi].
  pose proof (len_pos xs Hne) as Hn.
  pose proof (Rsum_lower lo xs Hlo) as H1.
  pose proof (Rsum_upper hi xs Hhi) as H2.
  unfold ref_mean. split.
  - apply Rmult_le_reg_r with (len xs); [exact Hn |].
    unfold Rdiv. rewrite Rmult_assoc, Rinv_l by lra. lra.
  - apply Rmult_le_reg_r with (len xs); [exact Hn |].
    unfold Rdiv. rewrite Rmult_assoc, Rinv_l by lra. lra.
Qed.

Lemma reachable_nonempty (self : Stats) :
  reachable self -> (1 <= _count self)%Z ->
  exists xs, xs <> [] /\ self = add_all xs empty_stats.
Proof.
  intros Hr Hc. apply reachable_add_all in Hr. destruct Hr as [xs ->].
  exists xs. split; [| reflexivity].
  intros ->. cbn in Hc. lia.
Qed.

(** C2: with count >= 1, [mean()] returns anchor + centeredSum / count, which
    is sum / count, and minimum <= maximum. *)
Theorem C2_mean_is_sum_over_count (self : Stats) :
  reachable self ->
  (1 <= _count self)%Z ->
  StatsM.mean self = (Ok (_K self + _Ex self / IZR (_count self)), self) /\
  _K self + _Ex self / IZR (_count self) = _sum self / IZR (_count self) /\
  xle (_minimum self) (_maximum self).
Proof.
  intros Hr Hc. split; [apply mean_run; exact Hc |].
  destruct (reachable_nonempty self Hr Hc) as (xs & Hne & ->).
  destruct (mean_formula_ref xs Hne) as [H1 H2]. cbn zeta in H1, H2.
  split; [congruence |].
  destruct (min_max_add_all xs Hne) as (lo & hi & -> & -> & Hlo & Hhi).
  cbn. destruct (ref_mean_between lo hi xs Hne Hlo Hhi). lra.
Qed.

Lemma C2_mean_is_sum_over_count_witness :
  let self := step (CallAdd 5) (step (CallAdd 3) (after StatsM.__init__ empty_stats)) in
  StatsM.mean self = (Ok (_K self + _Ex self / IZR (_count self)), self) /\
  _K self + _Ex self / IZR (_count self) = _sum self / IZR (_count self) /\
  xle (_minimum self) (_maximum self).
Proof.
  apply C2_mean_is_sum_over_count.
  - do 2 apply reachable_step. apply reachable_init.
  - cbn. lia.
Defined.

(** ** Queries with too few samples *)

Lemma sum_raise (self : Stats) :
  (_count self < 1)%Z ->
  StatsM.sum self = (Raise (StatsException (_need1ErrStr "sum")), self).
Proof.
  intros H. unfold StatsM.sum, bind, get.
  destruct (Z.ltb_spec (_count self) 1); [reflexivity | lia].
Qed.

Lemma min_raise (self : Stats) :
  (_count self < 1)%Z ->
  StatsM.min self = (Raise (StatsException (_need1ErrStr "minimum")), self).
Proof.
  intros H. unfold StatsM.min, bind, get.
  destruct (Z.ltb_spec (_count self) 1); [reflexivity | lia].
Qed.

Lemma max_raise (self : Stats) :
  (_count self < 1)%Z ->
  StatsM.max self = (Raise (StatsException (_need1ErrStr "maximum")), self).
Proof.
  intros H. unfold StatsM.max, bind, get.
  destruct (Z.ltb_spec (_count self) 1); [reflexivity | lia].
Qed.

Lemma mean_raise (self : Stats) :
  (_count self < 1)%Z ->
  StatsM.mean self = (Raise (StatsException (_need1ErrStr "mean")), self).
Proof.
  intros H. unfold StatsM.mean, bind, get.
  destruct (Z.ltb_spec (_count self) 1); [reflexivity | lia].
Qed.

Lemma var_raise (self : Stats) :
  (_count self < 2)%Z ->
  StatsM.var self = (Raise (StatsException (_need2ErrStr "variance")), self).
Proof.
  intros H. unfold StatsM.var, bind, get.
  destruct (Z.ltb_spec (_count self) 2); [reflexivity | lia].
Qed.

Lemma stddev_raise (self : Stats) :
  (_count self < 2)%Z ->
  StatsM.stddev self = (Raise (StatsException (_need2ErrStr "stddev")), self).
Proof.
  intros H. unfold StatsM.stddev, bind, get.
  destruct (Z.ltb_spec (_count self) 2); [reflexivity | lia].
Qed.

Lemma stderr_raise (self : Stats) :
  (_count self < 2)%Z ->
  StatsM.stderr self = (Raise (StatsException (_need2ErrStr "stderr")), self).
Proof.
  intros H. unfold StatsM.stderr, bind, get.
  destruct (Z.ltb_spec (_count self) 2); [reflexivity | lia].
Qed.

Lemma conf_raise (level : R) (self : Stats) :
  (_count self < 2)%Z ->
  StatsM.conf level self =
  (Raise (StatsException (_need2ErrStr "confidence interval")), self).
Proof.
  intros H. unfold StatsM.conf, bind, get.
  destruct (Z.ltb_spec (_count self) 2); [reflexivity | lia].
Qed.

(** ** Mean between the extremes; constant samples *)

Lemma Rsum_map_zero (f : R -> R) (xs : list R) :
  (forall y, In y xs -> f y = 0) -> Rsum (map f xs) = 0.
Proof.
  induction xs as [| x xs IH]; intros H; cbn [map].
  - reflexivity.
  - rewrite Rsum_cons, IH, H; [ring | left; reflexivity |].
    intros y Hy. apply H. right. exact Hy.
Qed.

(** C10: after at least one add since the last reset,
    min() <= mean() <= max(); and when all the values added (at least two)
    are the same value, mean() is that value and var() is 0. *)
Theorem C10_mean_between_min_max (blank : Stats) (xs : list R) :
  xs <> [] ->
  let s := add_all xs (after StatsM.reset blank) in
  (exists lo m hi,
     StatsM.min s = (Ok (Fin lo), s) /\
     StatsM.mean s = (Ok m, s) /\
     StatsM.max s = (Ok (Fin hi), s) /\
     lo <= m <= hi) /\
  (forall v, (2 <= List.length xs)%nat -> (forall y, In y xs -> y = v) ->
     StatsM.mean s = (Ok v, s) /\ StatsM.var s = (Ok 0, s)).
Proof.
  intros Hne. rewrite after_reset. cbn zeta.
  assert (Hc : (1 <= _count (add_all xs empty_stats))%Z).
  { rewrite count_add_all_empty. destruct xs; [contradiction | cbn; lia]. }
  destruct (min_max_add_all xs Hne) as (lo & hi & Hmin & Hmax & Hlo & Hhi).
  destruct (mean_formula_ref xs Hne) as [Hmean _]. cbn zeta in Hmean.
  pose proof (ref_mean_between lo hi xs Hne Hlo Hhi) as Hbetween.
  split.
  - exists lo, (ref_mean xs), hi.
    rewrite min_run, max_run, mean_run, Hmin, Hmax, Hmean by exact Hc.
    repeat split; apply Hbetween.
  - intros v Hlen Hsame.
    assert (Hm : ref_mean xs = v).
    { destruct Hlo as [Hlo _], Hhi as [Hhi _].
      apply Hsame in Hlo, Hhi. lra. }
    rewrite mean_run, Hmean, Hm by exact Hc.
    rewrite var_run by (rewrite count_add_all_empty; lia).
    pose proof (var_formula_ref xs Hlen) as Hv. cbn zeta in Hv. rewrite Hv.
    split; [reflexivity |].
    unfold ref_var. rewrite Rsum_map_zero.
    + unfold Rdiv. rewrite Rmult_0_l. reflexivity.
    + intros y Hy. rewrite Hm, (Hsame y Hy). ring.
Qed.

Lemma C10_mean_between_min_max_witness :
  let s := add_all [7; 7; 7] (after StatsM.reset empty_stats) in
  (exists lo m hi,
     StatsM.min s = (Ok (Fin lo), s) /\
     StatsM.mean s = (Ok m, s) /\
     StatsM.max s = (Ok (Fin hi), s) /\
     lo <= m <= hi) /\
  (forall v, (2 <= List.length [7; 7; 7])%nat ->
     (forall y, In y [7; 7; 7] -> y = v) ->
     StatsM.mean s = (Ok v, s) /\ StatsM.var s = (Ok 0, s)).
Proof.
  apply (C10_mean_between_min_max empty_stats [7; 7; 7]). discriminate.
Defined.

(** ** Order independence *)

Lemma ref_mean_perm (xs ys : list R) :
  Permutation xs ys -> ref_mean xs = ref_mean ys.
Proof.
  intros H. unfold ref_mean. rewrite (Rsum_perm _ _ H), (len_perm _ _ H). reflexivity.
Qed.

Lemma ref_var_perm (xs ys : list R) :
  Permutation xs ys -> ref_var xs = ref_var ys.
Proof.
  intros H. unfold ref_var.
  rewrite (ref_mean_perm _ _ H), (len_perm _ _ H).
  f_equal. apply Rsum_perm. apply Permutation_map. exact H.
Qed.

(** C6: adding the same values in two different orders to a freshly reset
    accumulator gives the same [mean()], [var()], [min()], [max()] and
    [sum()], though the anchor is the first value of each order. *)
Theorem C6_order_independence (blank1 blank2 : Stats) (xs ys : list R) :
  Permutation xs ys ->
  let s1 := add_all xs (after StatsM.reset blank1) in
  let s2 := add_all ys (after StatsM.reset blank2) in
  outcome StatsM.mean s1 = outcome StatsM.mean s2 /\
  outcome StatsM.var s1 = outcome StatsM.var s2 /\
  outcome StatsM.min s1 = outcome StatsM.min s2 /\
  outcome StatsM.max s1 = outcome StatsM.max s2 /\
  outcome StatsM.sum s1 = outcome StatsM.sum s2.
Proof.
  intros HP. rewrite !after_reset. cbn zeta. unfold outcome.
  pose proof (Permutation_length HP) as Hlen.
  destruct (list_eq_dec Req_dec_T xs []) as [-> | Hne].
  { apply Permutation_nil in HP. subst ys. repeat split. }
  assert (Hne' : ys <> []).
  { intros ->. apply Permutation_sym, Permutation_nil in HP. contradiction. }
  assert (Hc1 : (1 <= _count (add_all xs empty_stats))%Z).
  { rewrite count_add_all_empty. destruct xs; [contradiction | cbn; lia]. }
  assert (Hc2 : (1 <= _count (add_all ys empty_stats))%Z).
  { rewrite count_add_all_empty. destruct ys; [contradiction | cbn; lia]. }
  destruct (mean_formula_ref xs Hne) as [Hm1 Hs1].
  destruct (mean_formula_ref ys Hne') as [Hm2 Hs2].
  cbn zeta in Hm1, Hs1, Hm2, Hs2.
  destruct (min_max_add_all xs Hne) as (lo1 & hi1 & Hmin1 & Hmax1 & Hlo1 & Hhi1).
  destruct (min_max_add_all ys Hne') as (lo2 & hi2 & Hmin2 & Hmax2 & Hlo2 & Hhi2).
  assert (lo1 = lo2) by (eapply least_unique; [eapply least_perm |]; eauto).
  assert (hi1 = hi2) by (eapply greatest_unique; [eapply greatest_perm |]; eauto).
  subst lo2 hi2.
  rewrite !mean_run, !min_run, !max_run, !sum_run by assumption.
  cbn [fst]. rewrite Hm1, Hm2, Hmin1, Hmin2, Hmax1, Hmax2.
  rewrite (ref_mean_perm _ _ HP).
  split; [reflexivity |]. split; [| split; [reflexivity | split; [reflexivity |]]].
  - destruct (le_lt_dec 2 (List.length xs)) as [H2 | H2].
    + rewrite !var_run by (rewrite count_add_all_empty; lia). cbn [fst].
      pose proof (var_formula_ref xs H2) as Hv1.
      pose proof (var_formula_ref ys ltac:(lia)) as Hv2.
      cbn zeta in Hv1, Hv2. rewrite Hv1, Hv2, (ref_var_perm _ _ HP). reflexivity.
    + rewrite !var_raise by (rewrite count_add_all_empty; lia). reflexivity.
  - f_equal.
    assert (E1 : _sum (add_all xs empty_stats) = ref_mean xs * len xs).
    { rewrite <- Hs1, IZR_count_add_all_empty. field.
      pose proof (len_pos xs Hne). lra. }
    assert (E2 : _sum (add_all ys empty_stats) = ref_mean ys * len ys).
    { rewrite <- Hs2, IZR_count_add_all_empty. field.
      pose proof (len_pos ys Hne'). lra. }
    rewrite E1, E2, (ref_mean_perm _ _ HP), (len_perm _ _ HP). reflexivity.
Qed.

Lemma C6_order_independence_witness :
  let s1 := add_all [1; 2; 3] (after StatsM.reset empty_stats) in
  let s2 := add_all [3; 1; 2] (after StatsM.reset empty_stats) in
  outcome StatsM.mean s1 = outcome StatsM.mean s2 /\
  outcome StatsM.var s1 = outcome StatsM.var s2 /\
  outcome StatsM.min s1 = outcome StatsM.min s2 /\
  outcome StatsM.max s1 = outcome StatsM.max s2 /\
  outcome StatsM.sum s1 = outcome StatsM.sum s2.
Proof.
  apply (C6_order_independence empty_stats empty_stats [1; 2; 3] [3; 1; 2]).
  apply Permutation_sym.
  apply (Permutation_cons_app [1; 2] [] 3). apply Permutation_refl.
Defined.

(** ** [remove] and [reset] *)

(** C4: in every state and for every argument, [remove(value)] raises the
    unsupported-operation error and leaves the accumulator in the reset
    state: count 0, minimum +inf, maximum -inf, anchor 0 and the three sums
    0. *)
Theorem C4_remove_raises_and_resets (self : Stats) (value : R) :
  exists e,
    StatsM.remove value self = (Raise e, after StatsM.reset self) /\
    Unsupported e /\
    _count (after (StatsM.remove value) self) = 0%Z /\
    initial_configuration (after (StatsM.remove value) self).
Proof.
  exists (StatsException "the removal of values is not implemented").
  unfold Unsupported, initial_configuration.
  rewrite after_remove, after_reset. cbn. repeat split.
Qed.

Lemma empty_of_count_zero (self : Stats) :
  reachable self -> _count self = 0%Z -> self = empty_stats.
Proof.
  intros Hr Hc. apply reachable_add_all in Hr. destruct Hr as [xs ->].
  rewrite count_add_all_empty in Hc.
  destruct xs; [reflexivity | cbn in Hc; lia].
Qed.

Lemma count_nonneg (self : Stats) : reachable self -> (0 <= _count self)%Z.
Proof.
  intros Hr. apply reachable_add_all in Hr. destruct Hr as [xs ->].
  rewrite count_add_all_empty. lia.
Qed.

(** C8: in a reachable state, count == 0 exactly when the state is the
    initial configuration; construction and [reset()] both establish it,
    and [reset()] on an empty accumulator changes nothing. *)
Theorem C8_count_zero_iff_initial (self : Stats) :
  reachable self ->
  (_count self = 0%Z <-> initial_configuration self) /\
  (forall blank,
     _count (after StatsM.__init__ blank) = 0%Z /\
     initial_configuration (after StatsM.__init__ blank)) /\
  (_count (after StatsM.reset self) = 0%Z /\
   initial_configuration (after StatsM.reset self)) /\
  (_count self = 0%Z -> after StatsM.reset self = self) /\
  after StatsM.reset (after StatsM.reset self) = after StatsM.reset self.
Proof.
  intros Hr. split; [| split; [| split; [| split]]].
  - split.
    + intros Hc. rewrite (empty_of_count_zero self Hr Hc).
      unfold initial_configuration. cbn. repeat split.
    + intros (Hmin & _).
      pose proof (count_nonneg self Hr) as Hc.
      destruct (Z.eq_dec (_count self) 0) as [E | E]; [exact E | exfalso].
      destruct (reachable_nonempty self Hr ltac:(lia)) as (xs & Hne & ->).
      destruct (min_max_add_all xs Hne) as (lo & hi & Hlo & _).
      rewrite Hlo in Hmin. discriminate.
  - intros blank. unfold initial_configuration. cbn. repeat split.
  - unfold initial_configuration. cbn. repeat split.
  - intros Hc. rewrite after_reset. symmetry. apply empty_of_count_zero; assumption.
  - reflexivity.
Qed.

Lemma C8_count_zero_iff_initial_witness :
  let self := step (CallRemove 2) (step (CallAdd 1) (after StatsM.__init__ empty_stats)) in
  (_count self = 0%Z <-> initial_configuration self) /\
  (forall blank,
     _count (after StatsM.__init__ blank) = 0%Z /\
     initial_configuration (after StatsM.__init__ blank)) /\
  (_count (after StatsM.reset self) = 0%Z /\
   initial_configuration (after StatsM.reset self)) /\
  (_count self = 0%Z -> after StatsM.reset self = self) /\
  after StatsM.reset (after StatsM.reset self) = after StatsM.reset self.
Proof.
  apply C8_count_zero_iff_initial.
  do 2 apply reachable_step. apply reachable_init.
Defined.

(** ** The quantile approximations return a value on (0, 1) *)

Lemma Z_tail_range (p : R) : 0 < p < 1 -> 0 < Z_tail p <= 0.5.
Proof. intros H. unfold Z_tail. destruct (Rgt_dec p 0.5); lra. Qed.

Lemma ln_neg (q : R) : 0 < q < 1 -> ln q < 0.
Proof. intros H. rewrite <- ln_1. apply ln_increasing; lra. Qed.

Lemma Z_den_ge_1 (z1 : R) : 0 <= z1 -> 1 <= Z_den z1.
Proof. intros H. unfold Z_den. nra. Qed.

Lemma Z_run (p : R) :
  0 < p < 1 ->
  StatsM.Z p =
  Ok (if Rgt_dec p 0.5 then - Z_lower (Z_tail p) else Z_lower (Z_tail p)).
Proof.
  intros Hp. pose proof (Z_tail_range p Hp) as Hq.
  unfold StatsM.Z. fold (Z_tail p).
  rewrite math_log_ok by lra. cbn [rbind].
  assert (Hl : ln (Z_tail p) < 0) by (apply ln_neg; lra).
  rewrite math_sqrt_ok by lra. cbn [rbind].
  fold (Z_num (sqrt (-2.0 * ln (Z_tail p)))).
  fold (Z_den (sqrt (-2.0 * ln (Z_tail p)))).
  pose proof (Z_den_ge_1 _ (sqrt_pos (-2.0 * ln (Z_tail p)))) as Hd.
  rewrite py_div_ok by lra. cbn [rbind]. reflexivity.
Qed.

Lemma py_div_int_ok (a : R) (n : int) :
  n <> 0%Z -> (Z.abs n < float_int_limit)%Z -> py_div_int a n = Ok (a / IZR n).
Proof.
  intros Hn Hb. unfold py_div_int.
  destruct (Z.leb_spec float_int_limit (Z.abs n)); [lia |].
  apply py_div_ok. apply not_0_IZR. exact Hn.
Qed.

Lemma py_div_int_overflow (a : R) (n : int) :
  (float_int_limit <= Z.abs n)%Z -> py_div_int a n = Raise OverflowError.
Proof.
  intros Hb. unfold py_div_int.
  destruct (Z.leb_spec float_int_limit (Z.abs n)); [reflexivity | lia].
Qed.

(** The degrees of freedom [conf] passes are far inside the float range. *)
Lemma small_below_limit (n : int) :
  (Z.abs n < 2 ^ 62)%Z -> (Z.abs n < float_int_limit)%Z.
Proof.
  intros H. apply Z.lt_trans with (2 ^ 62)%Z; [exact H |].
  unfold float_int_limit. reflexivity.
Qed.

Lemma T_run (p z : R) (ndf : int) :
  StatsM.Z p = Ok z -> ndf <> 0%Z -> (Z.abs ndf < float_int_limit)%Z ->
  StatsM.T p ndf = Ok (if Rgt_dec p 0.5 then - T_upper z ndf else T_upper z ndf).
Proof.
  intros HZ Hn Hb. unfold StatsM.T. rewrite HZ. cbn [rbind StatsM.T_loop nth].
  repeat (rewrite py_div_int_ok by assumption; cbn [rbind]).
  reflexivity.
Qed.

(** ** Standard deviation and standard error *)

Lemma ref_var_nonneg (xs : list R) : (2 <= List.length xs)%nat -> 0 <= ref_var xs.
Proof.
  intros H. unfold ref_var.
  pose proof (len_ge xs 2 H) as Hn. cbn in Hn.
  apply Rmult_le_pos; [apply Rsum_sq_nonneg |].
  left. apply Rinv_0_lt_compat. lra.
Qed.

(** On a reachable state with two samples or more, the variance computed is
    not negative, so the square roots are defined. *)
Lemma var_nonneg (self : Stats) :
  reachable self -> (2 <= _count self)%Z ->
  0 <= (_Ex2 self - _Ex self * _Ex self / IZR (_count self))
       / IZR (_count self - 1).
Proof.
  intros Hr Hc. apply reachable_add_all in Hr. destruct Hr as [xs ->].
  rewrite count_add_all_empty in Hc.
  assert (Hlen : (2 <= List.length xs)%nat) by lia.
  pose proof (var_formula_ref xs Hlen) as Hv. cbn zeta in Hv. rewrite Hv.
  apply ref_var_nonneg. exact Hlen.
Qed.

Lemma stddev_run (self : Stats) :
  reachable self -> (2 <= _count self)%Z ->
  StatsM.stddev self =
  (Ok (sqrt ((_Ex2 self - _Ex self * _Ex self / IZR (_count self))
             / IZR (_count self - 1))), self).
Proof.
  intros Hr Hc. unfold StatsM.stddev, bind at 1, get.
  destruct (Z.ltb_spec (_count self) 2); [lia |].
  unfold bind. rewrite var_run by exact Hc. unfold lift.
  rewrite math_sqrt_ok by (apply var_nonneg; assumption). reflexivity.
Qed.

Lemma stderr_run (self : Stats) :
  reachable self -> (2 <= _count self)%Z ->
  StatsM.stderr self =
  (Ok (sqrt ((_Ex2 self - _Ex self * _Ex self / IZR (_count self))
             / IZR (_count self - 1) / IZR (_count self))), self).
Proof.
  intros Hr Hc. unfold StatsM.stderr, bind at 1, get.
  destruct (Z.ltb_spec (_count self) 2); [lia |].
  unfold bind. rewrite var_run by exact Hc. unfold lift.
  assert (Hn : 0 < IZR (_count self)) by (apply IZR_lt; lia).
  rewrite py_div_ok by lra.
  rewrite math_sqrt_ok; [reflexivity |].
  apply Rmult_le_pos; [apply var_nonneg; assumption |].
  left. apply Rinv_0_lt_compat. exact Hn.
Qed.

(** ** The confidence half-width *)

Lemma centered_range (level : R) :
  0 < level < 1 -> 0 < (1.0 - level) / 2 < 0.5.
Proof. intros H. lra. Qed.

Lemma Z_centered_ok (level : R) :
  0 < level < 1 -> exists z, StatsM.Z ((1.0 - level) / 2) = Ok z.
Proof.
  intros H. eexists. apply Z_run. pose proof (centered_range level H). lra.
Qed.

Lemma T_centered_ok (level : R) (ndf : int) :
  0 < level < 1 -> ndf <> 0%Z -> (Z.abs ndf < float_int_limit)%Z ->
  exists t, StatsM.T ((1.0 - level) / 2) ndf = Ok t.
Proof.
  intros H Hn Hb. destruct (Z_centered_ok level H) as [z Hz].
  eexists. apply (T_run _ z); assumption.
Qed.

Lemma conf_run (self : Stats) (level fudge se : R) :
  (2 <= _count self)%Z ->
  (if ((_count self >? 1)%Z && (_count self <? 30)%Z)%bool
   then StatsM.T ((1.0 - level) / 2) (_count self - 1)
   else StatsM.Z ((1.0 - level) / 2)) = Ok fudge ->
  StatsM.stderr self = (Ok se, self) ->
  StatsM.conf level self = (Ok (fudge * se), self).
Proof.
  intros Hc Hf Hse. unfold StatsM.conf, bind at 1, get.
  destruct (Z.ltb_spec (_count self) 2); [lia |].
  cbn zeta. unfold bind at 1.
  destruct ((_count self >? 1)%Z && (_count self <? 30)%Z)%bool;
    unfold lift; rewrite Hf; unfold bind; rewrite Hse; reflexivity.
Qed.

Lemma conf_stderr_raise (self : Stats) (level fudge : R) (e : exn) :
  (2 <= _count self)%Z ->
  (if ((_count self >? 1)%Z && (_count self <? 30)%Z)%bool
   then StatsM.T ((1.0 - level) / 2) (_count self - 1)
   else StatsM.Z ((1.0 - level) / 2)) = Ok fudge ->
  StatsM.stderr self = (Raise e, self) ->
  StatsM.conf level self = (Raise e, self).
Proof.
  intros Hc Hf Hse. unfold StatsM.conf, bind at 1, get.
  destruct (Z.ltb_spec (_count self) 2); [lia |].
  cbn zeta. unfold bind at 1.
  destruct ((_count self >? 1)%Z && (_count self <? 30)%Z)%bool;
    unfold lift; rewrite Hf; unfold bind; rewrite Hse; reflexivity.
Qed.

(** The multiplier [conf] computes returns for every level in (0, 1): the
    Student approximation with count - 1 degrees of freedom below 30
    samples, the Gaussian one from 30 on. *)
Lemma conf_multiplier_ok (self : Stats) (level : R) :
  (2 <= _count self)%Z -> 0 < level < 1 ->
  exists m,
    (if ((_count self >? 1)%Z && (_count self <? 30)%Z)%bool
     then StatsM.T ((1.0 - level) / 2) (_count self - 1)
     else StatsM.Z ((1.0 - level) / 2)) = Ok m /\
    ((2 <= _count self < 30)%Z ->
       StatsM.T ((1.0 - level) / 2) (_count self - 1) = Ok m) /\
    ((30 <= _count self)%Z -> StatsM.Z ((1.0 - level) / 2) = Ok m).
Proof.
  intros Hc Hl.
  destruct (Z_centered_ok level Hl) as [z Hz].
  destruct (Z.gtb_spec (_count self) 1); [| lia].
  destruct (Z.ltb_spec (_count self) 30); cbn [andb].
  - destruct (T_centered_ok level (_count self - 1) Hl ltac:(lia)
                ltac:(apply small_below_limit; lia)) as [t Ht].
    exists t. split; [exact Ht |]. split; [intros _; exact Ht | intros; lia].
  - exists z. split; [exact Hz |]. split; [intros; lia | intros _; exact Hz].
Qed.

(** C3, as the class computes it: with count >= 2 and level in (0,1),
    [conf(level)] first computes the multiplier, T(centered, count - 1)
    when 2 <= count < 30 and Z(centered) when count >= 30, for
    centered = (1 - level)/2; the multiplier always returns.  It then calls
    [stderr()]: when that returns se, [conf] returns multiplier * se; when
    it raises, [conf] raises the same exception.  This holds in every
    state, reachable in exact arithmetic or not. *)
Theorem C3_conf_multiplier (self : Stats) (level : R) :
  (2 <= _count self)%Z ->
  0 < level < 1 ->
  let centered := (1 - level) / 2 in
  exists multiplier,
    ((2 <= _count self < 30)%Z ->
       StatsM.T centered (_count self - 1) = Ok multiplier) /\
    ((30 <= _count self)%Z -> StatsM.Z centered = Ok multiplier) /\
    (forall se, StatsM.stderr self = (Ok se, self) ->
       StatsM.conf level self = (Ok (multiplier * se), self)) /\
    (forall e, StatsM.stderr self = (Raise e, self) ->
       StatsM.conf level self = (Raise e, self)).
Proof.
  intros Hc Hl. cbn zeta.
  replace ((1 - level) / 2) with ((1.0 - level) / 2) by lra.
  destruct (conf_multiplier_ok self level Hc Hl) as (m & Hm & HT & HZ).
  exists m. split; [exact HT |]. split; [exact HZ |]. split.
  - intros se Hse. apply conf_run; assumption.
  - intros e Hse. apply (conf_stderr_raise self level m); assumption.
Qed.

Lemma two_adds_reachable :
  reachable (step (CallAdd 2) (step (CallAdd 1) (after StatsM.__init__ empty_stats))).
Proof. do 2 apply reachable_step. apply reachable_init. Qed.

Lemma C3_conf_multiplier_witness :
  let self := step (CallAdd 2) (step (CallAdd 1) (after StatsM.__init__ empty_stats)) in
  let centered := (1 - 0.95) / 2 in
  exists multiplier,
    ((2 <= _count self < 30)%Z ->
       StatsM.T centered (_count self - 1) = Ok multiplier) /\
    ((30 <= _count self)%Z -> StatsM.Z centered = Ok multiplier) /\
    (forall se, StatsM.stderr self = (Ok se, self) ->
       StatsM.conf 0.95 self = (Ok (multiplier * se), self)) /\
    (forall e, StatsM.stderr self = (Raise e, self) ->
       StatsM.conf 0.95 self = (Raise e, self)).
Proof.
  apply (C3_conf_multiplier _ 0.95).
  - cbn. lia.
  - lra.
Defined.



(** ** Which queries fail, and when *)

Lemma guarded_intro {A : Type} (m : M A) (required : int) (self : Stats) :
  ((_count self < required)%Z -> raises_insufficient m required self) ->
  ((required <= _count self)%Z -> returns_value m self) ->
  guarded m required self.
Proof.
  intros Hlow Hhigh. split; split; auto.
  - intros (e & _ & He).
    destruct (Z_lt_le_dec (_count self) required) as [Hlt | Hge]; [exact Hlt |].
    destruct (Hhigh Hge) as [v Hv]. congruence.
  - intros (v & Hv).
    destruct (Z_lt_le_dec (_count self) required) as [Hlt | Hge]; [| exact Hge].
    destruct (Hlow Hlt) as (e & _ & He). congruence.
Qed.

Lemma need1_insufficient (op : string) :
  InsufficientSamples 1 (StatsException (_need1ErrStr op)).
Proof. exists op. left. split; reflexivity. Qed.

Lemma need2_insufficient (op : string) :
  InsufficientSamples 2 (StatsException (_need2ErrStr op)).
Proof. exists op. right. split; reflexivity. Qed.

(** *** In any state, reachable in exact arithmetic or not *)

Lemma var_run_formula (self : Stats) :
  (2 <= _count self)%Z -> StatsM.var self = (Ok (var_formula self), self).
Proof. apply var_run. Qed.

Lemma stddev_any (self : Stats) :
  (2 <= _count self)%Z ->
  StatsM.stddev self = (math_sqrt (var_formula self), self).
Proof.
  intros Hc. unfold StatsM.stddev, bind at 1, get.
  destruct (Z.ltb_spec (_count self) 2); [lia |].
  unfold bind. rewrite var_run_formula by exact Hc. reflexivity.
Qed.

Lemma stderr_any (self : Stats) :
  (2 <= _count self)%Z ->
  StatsM.stderr self =
  (math_sqrt (var_formula self / IZR (_count self)), self).
Proof.
  intros Hc. unfold StatsM.stderr, bind at 1, get.
  destruct (Z.ltb_spec (_count self) 2); [lia |].
  unfold bind. rewrite var_run_formula by exact Hc. unfold lift, get.
  rewrite py_div_ok by (apply not_0_IZR; lia). reflexivity.
Qed.

Lemma conf_any (self : Stats) (level : R) :
  (2 <= _count self)%Z -> 0 < level < 1 ->
  exists m,
    StatsM.conf level self =
    (rbind (math_sqrt (var_formula self / IZR (_count self)))
           (fun se => Ok (m * se)), self).
Proof.
  intros Hc Hl.
  destruct (conf_multiplier_ok self level Hc Hl) as (m & Hm & _).
  exists m. pose proof (stderr_any self Hc) as Hse.
  destruct (math_sqrt (var_formula self / IZR (_count self))) as [se | e] eqn:Hs.
  - cbn [rbind]. apply conf_run; assumption.
  - cbn [rbind]. apply (conf_stderr_raise self level m); assumption.
Qed.

Lemma value_error_not_insufficient (required : int) :
  ~ InsufficientSamples required ValueError.
Proof. intros (op & [[_ H] | [_ H]]); discriminate. Qed.

Lemma guarded_sqrt_intro {A : Type} (m : M A) (self : Stats) :
  ((_count self < 2)%Z -> raises_insufficient m 2 self) ->
  ((2 <= _count self)%Z ->
   exists (x : R) (k : R -> A),
     m self = (rbind (math_sqrt x) (fun r => Ok (k r)), self) /\
     (0 <= var_formula self -> 0 <= x)) ->
  guarded_sqrt m self.
Proof.
  intros Hlow Hhigh. split; [split |].
  - intros (e & He & Hm).
    destruct (Z_lt_le_dec (_count self) 2) as [Hlt | Hge]; [exact Hlt | exfalso].
    destruct (Hhigh Hge) as (x & k & Hx & _). rewrite Hx in Hm.
    unfold math_sqrt in Hm. destruct (Rlt_dec x 0); cbn [rbind] in Hm.
    + injection Hm as <-. exact (value_error_not_insufficient 2 He).
    + discriminate.
  - exact Hlow.
  - intros Hc. destruct (Hhigh Hc) as (x & k & Hx & Hpos). split.
    + unfold returns_value. rewrite Hx. unfold math_sqrt.
      destruct (Rlt_dec x 0); cbn [rbind]; [right; reflexivity |].
      left. eexists. reflexivity.
    + intros v Hv Hv0. rewrite var_run_formula in Hv by exact Hc.
      injection Hv as <-. unfold returns_value. rewrite Hx.
      rewrite math_sqrt_ok by (apply Hpos; exact Hv0).
      eexists. reflexivity.
Qed.

(** C5, as the class behaves: [sum()], [min()], [max()] and [mean()] raise
    the insufficient-samples error exactly when count < 1 and return a
    value otherwise; [var()] raises it exactly when count < 2 and returns
    a value otherwise; [stddev()], [stderr()] and [conf(level)], for level
    in (0,1), raise it exactly when count < 2, and with two samples or
    more either return a value or raise the [ValueError] of [math.sqrt];
    they return a value whenever the variance computed is not negative.
    [count()] always returns the count; no query changes the state. *)
Theorem C5_query_guards (self : Stats) (level : R) :
  0 < level < 1 ->
  guarded StatsM.sum 1 self /\
  guarded StatsM.min 1 self /\
  guarded StatsM.max 1 self /\
  guarded StatsM.mean 1 self /\
  guarded StatsM.var 2 self /\
  guarded_sqrt StatsM.stddev self /\
  guarded_sqrt StatsM.stderr self /\
  guarded_sqrt (StatsM.conf level) self /\
  StatsM.count self = (Ok (_count self), self) /\
  (forall c, match c with
             | CallAdd _ | CallRemove _ | CallReset => True
             | _ => step c self = self
             end).
Proof.
  intros Hl.
  repeat match goal with
         | |- guarded _ _ _ /\ _ => split
         | |- guarded_sqrt _ _ /\ _ => split
         end.
  - apply guarded_intro; intros H.
    + eexists. split; [apply need1_insufficient | apply sum_raise; exact H].
    + eexists. apply sum_run. exact H.
  - apply guarded_intro; intros H.
    + eexists. split; [apply need1_insufficient | apply min_raise; exact H].
    + eexists. apply min_run. exact H.
  - apply guarded_intro; intros H.
    + eexists. split; [apply need1_insufficient | apply max_raise; exact H].
    + eexists. apply max_run. exact H.
  - apply guarded_intro; intros H.
    + eexists. split; [apply need1_insufficient | apply mean_raise; exact H].
    + eexists. apply mean_run. exact H.
  - apply guarded_intro; intros H.
    + eexists. split; [apply need2_insufficient | apply var_raise; exact H].
    + eexists. apply var_run. exact H.
  - apply guarded_sqrt_intro; intros H.
    + eexists. split; [apply need2_insufficient | apply stddev_raise; exact H].
    + exists (var_formula self), (fun r => r). split; [| auto].
      rewrite (stddev_any self H). destruct (math_sqrt _); reflexivity.
  - apply guarded_sqrt_intro; intros H.
    + eexists. split; [apply need2_insufficient | apply stderr_raise; exact H].
    + exists (var_formula self / IZR (_count self)), (fun r => r). split.
      * rewrite (stderr_any self H). destruct (math_sqrt _); reflexivity.
      * intros Hv. apply Rmult_le_pos; [exact Hv |].
        left. apply Rinv_0_lt_compat. apply IZR_lt. lia.
  - apply guarded_sqrt_intro; intros H.
    + eexists. split; [apply need2_insufficient | apply conf_raise; exact H].
    + destruct (conf_any self level H Hl) as (m & Hm).
      exists (var_formula self / IZR (_count self)), (fun se => m * se). split.
      * exact Hm.
      * intros Hv. apply Rmult_le_pos; [exact Hv |].
        left. apply Rinv_0_lt_compat. apply IZR_lt. lia.
  - split; [apply count_run |].
    intros []; cbn [step]; trivial;
      first [ apply readonly_count | apply readonly_sum | apply readonly_min
            | apply readonly_max | apply readonly_mean | apply readonly_var
            | apply readonly_stddev | apply readonly_stderr
            | apply readonly_conf ].
Qed.

Lemma C5_query_guards_witness :
  let self := step (CallAdd 1) (after StatsM.__init__ empty_stats) in
  guarded StatsM.sum 1 self /\
  guarded StatsM.min 1 self /\
  guarded StatsM.max 1 self /\
  guarded StatsM.mean 1 self /\
  guarded StatsM.var 2 self /\
  guarded_sqrt StatsM.stddev self /\
  guarded_sqrt StatsM.stderr self /\
  guarded_sqrt (StatsM.conf 0.95) self /\
  StatsM.count self = (Ok (_count self), self) /\
  (forall c, match c with
             | CallAdd _ | CallRemove _ | CallReset => True
             | _ => step c self = self
             end).
Proof.
  apply (C5_query_guards _ 0.95). lra.
Defined.

(** ** A numeric bound on ln 2 *)

Lemma le_div_intro (a b c : R) : 0 < c -> a * c <= b -> a <= b / c.
Proof.
  intros Hc H. apply Rmult_le_reg_r with c; [exact Hc |].
  unfold Rdiv. rewrite Rmult_assoc, Rinv_l by lra. lra.
Qed.

Lemma lt_div_intro (a b c : R) : 0 < c -> a * c < b -> a < b / c.
Proof.
  intros Hc H. apply Rmult_lt_reg_r with c; [exact Hc |].
  unfold Rdiv. rewrite Rmult_assoc, Rinv_l by lra. lra.
Qed.

Lemma IZR_div_le (a b : int) : (0 < b)%Z -> IZR (a / b) <= IZR a / IZR b.
Proof.
  intros Hb.
  assert (Hb' : 0 < IZR b) by (apply IZR_lt; exact Hb).
  apply le_div_intro; [exact Hb' |].
  rewrite <- mult_IZR. apply IZR_le.
  rewrite Z.mul_comm. apply Z.mul_div_le. exact Hb.
Qed.

Lemma fx_scale_pos : 0 < IZR fx_scale.
Proof. apply IZR_lt. reflexivity. Qed.

Lemma fx_sq_nonneg (c : int) : (0 <= c)%Z -> (0 <= fx_sq c)%Z.
Proof.
  intros H. unfold fx_sq. apply Z.div_pos; [| reflexivity].
  apply Z.mul_nonneg_nonneg; exact H.
Qed.

(** Squaring in fixed point stays below the square of the real bound. *)
Lemma fx_sq_sound (c : int) (x : R) :
  (0 <= c)%Z -> IZR c / IZR fx_scale <= x ->
  IZR (fx_sq c) / IZR fx_scale <= x * x.
Proof.
  intros Hc Hx. pose proof fx_scale_pos as HS.
  assert (H0 : 0 <= IZR c / IZR fx_scale).
  { apply Rmult_le_pos; [apply IZR_le; exact Hc |].
    left. apply Rinv_0_lt_compat. exact HS. }
  apply Rle_trans with ((IZR c / IZR fx_scale) * (IZR c / IZR fx_scale)).
  - unfold fx_sq.
    apply Rle_trans with (IZR (c * c) / IZR fx_scale / IZR fx_scale).
    + apply Rmult_le_compat_r; [left; apply Rinv_0_lt_compat; exact HS |].
      apply IZR_div_le. reflexivity.
    + rewrite mult_IZR. right. field. lra.
  - apply Rmult_le_compat; assumption.
Qed.

Lemma fx_iter_sound (k : nat) (c : int) (x : R) :
  (0 <= c)%Z -> IZR c / IZR fx_scale <= exp x ->
  (0 <= Nat.iter k fx_sq c)%Z /\
  IZR (Nat.iter k fx_sq c) / IZR fx_scale <= exp (2 ^ k * x).
Proof.
  intros Hc Hx. induction k as [| k [IH0 IH]].
  - cbn [Nat.iter pow]. rewrite Rmult_1_l. split; assumption.
  - cbn [Nat.iter]. split; [apply fx_sq_nonneg; exact IH0 |].
    replace (2 ^ S k * x) with (2 ^ k * x + 2 ^ k * x) by (cbn [pow]; ring).
    rewrite exp_plus. apply fx_sq_sound; assumption.
Qed.

Lemma fx_start_sound : IZR fx_start / IZR fx_scale <= exp (0.6931473 / 2 ^ 24).
Proof.
  pose proof fx_scale_pos as HS.
  apply Rle_trans with (1 + 0.6931473 / 2 ^ 24); [| apply exp_ineq1_le].
  unfold fx_start. rewrite plus_IZR.
  pose proof (IZR_div_le (fx_scale * 6931473) (10 ^ 7 * 2 ^ 24) ltac:(reflexivity)) as H.
  rewrite mult_IZR in H.
  replace (IZR (10 ^ 7 * 2 ^ 24)) with (10000000 * 2 ^ 24) in H.
  2:{ change (10 ^ 7 * 2 ^ 24)%Z with (10000000 * 2 ^ 24)%Z.
      rewrite mult_IZR, (pow_IZR 2 24). reflexivity. }
  apply Rle_trans with
    ((IZR fx_scale + IZR fx_scale * 6931473 / (10000000 * 2 ^ 24)) / IZR fx_scale).
  - apply Rmult_le_compat_r; [left; apply Rinv_0_lt_compat; exact HS |]. lra.
  - right. replace 0.6931473 with (6931473 / 10000000) by lra.
    generalize dependent (IZR fx_scale). intros S HS _.
    field. lra.
Qed.

Lemma exp_lower_bound : 2 < exp 0.6931473.
Proof.
  pose proof fx_scale_pos as HS.
  destruct (fx_iter_sound 24 fx_start (0.6931473 / 2 ^ 24)
              ltac:(vm_compute; discriminate) fx_start_sound) as [_ H].
  replace (2 ^ 24 * (0.6931473 / 2 ^ 24)) with 0.6931473 in H
    by (field; apply pow_nonzero; lra).
  eapply Rlt_le_trans; [| exact H].
  apply lt_div_intro; [exact HS |].
  rewrite <- mult_IZR. apply IZR_lt. vm_compute. reflexivity.
Qed.

Lemma ln_2_upper : ln 2 < 0.6931473.
Proof.
  apply exp_lt_inv. rewrite exp_ln by lra. exact exp_lower_bound.
Qed.

(** ** The value of [Z] at the symmetry point *)

Lemma sqrt_2_ln_2_bounds :
  let t := sqrt (-2.0 * ln 0.5) in
  1 < t < 1.1774102.
Proof.
  cbn zeta.
  replace (-2.0 * ln 0.5) with (2 * ln 2).
  2:{ replace 0.5 with (/ 2) by lra. rewrite ln_Rinv by lra. lra. }
  pose proof ln_2_upper as Hup. pose proof ln_lt_2 as Hlo.
  pose proof (sqrt_pos (2 * ln 2)) as Hpos.
  pose proof (sqrt_sqrt (2 * ln 2) ltac:(lra)) as Hsq.
  set (t := sqrt (2 * ln 2)) in *.
  split.
  - apply Rnot_le_lt. intros Hle. assert (t * t <= 1) by nra. lra.
  - apply Rnot_le_lt. intros Hle.
    assert (1.1774102 * 1.1774102 <= t * t) by nra. lra.
Qed.

(** At p = 0.5 the approximation does not return 0 but a small negative
    number. *)
Lemma Z_lower_half_bounds : -1 < Z_lower 0.5 < - (3 / 1000000).
Proof.
  unfold Z_lower. cbn zeta.
  destruct sqrt_2_ln_2_bounds as [Hlo Hup]. cbn zeta in Hlo, Hup.
  set (t := sqrt (-2.0 * ln 0.5)) in *.
  assert (H2 : 1 <= t * t <= 1.1774102 * 1.1774102) by nra.
  assert (H3 : 1 <= t * t * t <= 1.1774102 * 1.1774102 * 1.1774102) by nra.
  assert (H4 : 1 <= t * t * t * t
               <= 1.1774102 * 1.1774102 * 1.1774102 * 1.1774102) by nra.
  assert (Hd : 0 < Z_den t) by (unfold Z_den; nra).
  split.
  - assert (H : Z_num t / Z_den t < t + 1); [| lra].
    apply Rmult_lt_reg_r with (Z_den t); [exact Hd |].
    unfold Rdiv. rewrite Rmult_assoc, Rinv_l by lra.
    unfold Z_num, Z_den. nra.
  - assert (H : t + 3 / 1000000 < Z_num t / Z_den t); [| lra].
    apply lt_div_intro; [exact Hd |].
    unfold Z_num, Z_den. lra.
Qed.

Lemma Z_half : StatsM.Z 0.5 = Ok (Z_lower 0.5).
Proof.
  rewrite Z_run by lra. unfold Z_tail.
  destruct (Rgt_dec 0.5 0.5); [lra | reflexivity].
Qed.

Lemma Z_half_mirror : StatsM.Z (1 - 0.5) = Ok (Z_lower 0.5).
Proof. replace (1 - 0.5) with 0.5 by lra. exact Z_half. Qed.

Lemma T_half (ndf : int) :
  ndf <> 0%Z -> (Z.abs ndf < float_int_limit)%Z ->
  StatsM.T 0.5 ndf = Ok (T_upper (Z_lower 0.5) ndf).
Proof.
  intros Hn Hb. rewrite (T_run 0.5 (Z_lower 0.5) ndf Z_half Hn Hb).
  destruct (Rgt_dec 0.5 0.5); [lra | reflexivity].
Qed.

Lemma T_half_mirror (ndf : int) :
  ndf <> 0%Z -> (Z.abs ndf < float_int_limit)%Z ->
  StatsM.T (1 - 0.5) ndf = Ok (T_upper (Z_lower 0.5) ndf).
Proof. replace (1 - 0.5) with 0.5 by lra. apply T_half. Qed.

Lemma one_below_limit : (Z.abs 1 < float_int_limit)%Z.
Proof. apply small_below_limit. reflexivity. Qed.

(** With one degree of freedom the correction only enlarges a small
    [|Z(p)|]. *)
Lemma T_upper_small (z : R) :
  0 < Rabs z <= 1 -> 1.2 * Rabs z <= T_upper z 1.
Proof.
  intros Hz. unfold T_upper, T_terms. cbn [nth].
  set (z1 := Rabs z) in *. set (z2 := z1 * z1).
  assert (Hz2 : 0 <= z2 <= 1) by (unfold z2; nra).
  set (a0 := z2 + 1.0).
  set (a1 := (5.0 * z2 + 16.0) * z2 + 3.0).
  set (a2 := (3.0 * z2 + 19.0) * z2 - 15.0).
  set (c := (79.0 * z2 + 776.0) * z2 + 1482.0).
  set (b := c * z2 - 1920.0).
  set (a3 := b * z2 - 945.0).
  assert (H0 : 1 <= a0) by (unfold a0; lra).
  assert (H1 : 3 <= a1) by (unfold a1; nra).
  assert (H2 : -15 <= a2) by (unfold a2; nra).
  assert (Hc : 0 <= c) by (unfold c; nra).
  assert (Hb : -1920 <= b) by (unfold b; nra).
  assert (H3 : -2865 <= a3) by (unfold a3; nra).
  replace (z1 +
    ((((0.0 + z1 * a3 * 0.000010851) / 1 + 0.002604167 * z1 * a2) / 1
      + 0.010416667 * z1 * a1) / 1 + 0.25 * z1 * a0) / 1)
    with (z1 * (1 + 0.25 * a0 + 0.010416667 * a1 + 0.002604167 * a2
                + 0.000010851 * a3)) by lra.
  rewrite (Rmult_comm 1.2 z1). apply Rmult_le_compat_l; lra.
Qed.

Lemma Rabs_Z_lower_half : 3 / 1000000 < Rabs (Z_lower 0.5) <= 1.
Proof.
  destruct Z_lower_half_bounds as [Hlo Hup].
  rewrite Rabs_left by lra. lra.
Qed.

(** ** Antisymmetry away from the symmetry point *)

Lemma T_upper_opp (z : R) (ndf : int) : T_upper (- z) ndf = T_upper z ndf.
Proof. unfold T_upper. rewrite Rabs_Ropp. reflexivity. Qed.

Lemma Z_mirror (p : R) :
  0 < p < 1 -> p <> 0.5 ->
  exists z, StatsM.Z p = Ok z /\ StatsM.Z (1 - p) = Ok (- z).
Proof.
  intros Hp Hne. rewrite (Z_run p Hp), (Z_run (1 - p)) by lra.
  unfold Z_tail.
  destruct (Rgt_dec p 0.5) as [Hgt | Hngt], (Rgt_dec (1 - p) 0.5) as [Hgt' | Hngt'];
    try lra.
  - eexists. split; [reflexivity |]. rewrite Ropp_involutive. reflexivity.
  - eexists. split; [reflexivity |].
    replace (1 - (1 - p)) with p by ring. reflexivity.
Qed.

Lemma T_mirror (p : R) (ndf : int) :
  0 < p < 1 -> p <> 0.5 -> ndf <> 0%Z -> (Z.abs ndf < float_int_limit)%Z ->
  exists t, StatsM.T p ndf = Ok t /\ StatsM.T (1 - p) ndf = Ok (- t).
Proof.
  intros Hp Hne Hn Hb. destruct (Z_mirror p Hp Hne) as (z & Hz & Hz').
  rewrite (T_run p z ndf Hz Hn Hb), (T_run (1 - p) (- z) ndf Hz' Hn Hb), T_upper_opp.
  destruct (Rgt_dec p 0.5) as [Hgt | Hngt], (Rgt_dec (1 - p) 0.5) as [Hgt' | Hngt'];
    try lra.
  - eexists. split; [reflexivity |]. rewrite Ropp_involutive. reflexivity.
  - eexists. split; reflexivity.
Qed.

(** C7, as it holds: for p in (0,1) other than 0.5, q exactly the mirror
    of p (p + q = 1) and an integer ndf >= 1 that converts to a float,
    Z(q) == -Z(p) and T(q, ndf) == -T(p, ndf), both sides returning.  [Z]
    itself takes the mirror of an argument above 0.5, a subtraction that
    is exact there; a caller that computes 1 - p for a p below 0.5 may not
    get the mirror. *)
Theorem C7_antisymmetry_off_centre (p q : R) (ndf : int) :
  0 < p < 1 -> p + q = 1 -> p <> 0.5 ->
  (1 <= ndf < float_int_limit)%Z ->
  mirror_antisymmetric p q ndf.
Proof.
  intros Hp Hq Hne Hn. replace q with (1 - p) by lra. split.
  - apply Z_mirror; assumption.
  - apply T_mirror; [assumption | assumption | lia | lia].
Qed.

Lemma C7_antisymmetry_off_centre_witness : mirror_antisymmetric 0.025 0.975 3.
Proof.
  apply C7_antisymmetry_off_centre; [lra | lra | lra |].
  split; [lia | unfold float_int_limit; reflexivity].
Defined.

(** C7 fails at the symmetry point: Z(0.5) and Z(1 - 0.5) are the same
    number, which is below -3e-6 and not 0, so Z(0.5) and -Z(1 - 0.5) differ
    by more than 6e-6; and so do T(0.5, 1) and -T(1 - 0.5, 1).  It also
    fails where the mirror is not what the caller gets: in binary64
    1 - 1e-17 is 1.0, where [Z] raises [ValueError] whatever the logarithm,
    and 1 - (0.5 - 2^-54) is 0.5; and [T] raises [OverflowError] for a
    number of degrees of freedom such as 2^1024. *)
Lemma C7_symmetry_point_counterexample :
  0 < 0.5 < 1 /\ (1 <= 1)%Z /\
  ~ antisymmetric_at 0.5 1 /\
  ~ (exists z, StatsM.Z 0.5 = Ok z /\ StatsM.Z (1 - 0.5) = Ok (- z)) /\
  ~ (exists t, StatsM.T 0.5 1 = Ok t /\ StatsM.T (1 - 0.5) 1 = Ok (- t)) /\
  (forall z z', StatsM.Z 0.5 = Ok z -> StatsM.Z (1 - 0.5) = Ok z' ->
     6 / 1000000 < Rabs (z - - z')) /\
  (forall t t', StatsM.T 0.5 1 = Ok t -> StatsM.T (1 - 0.5) 1 = Ok t' ->
     6 / 1000000 < Rabs (t - - t')) /\
  Float64.mirror Float64.tiny_tail = PrimFloat.one /\
  (forall libm_log,
     Float64.Z libm_log (Float64.mirror Float64.tiny_tail) = Raise ValueError) /\
  Float64.mirror Float64.below_half = Float64.half /\
  StatsM.T 0.025 (2 ^ 1024) = Raise OverflowError.
Proof.
  destruct Z_lower_half_bounds as [Hlo Hup].
  pose proof Rabs_Z_lower_half as Habs.
  pose proof (T_upper_small (Z_lower 0.5) ltac:(lra)) as HT.
  assert (HZ : ~ (exists z, StatsM.Z 0.5 = Ok z /\ StatsM.Z (1 - 0.5) = Ok (- z))).
  { intros (z & H1 & H2). rewrite Z_half in H1. rewrite Z_half_mirror in H2.
    injection H1 as <-. injection H2 as H2. lra. }
  split; [lra |]. split; [lia |].
  split; [intros [H _]; exact (HZ H) |].
  split; [exact HZ |].
  pose proof one_below_limit as Hone.
  split; [| split; [| split; [| split; [| split; [| split]]]]].
  - intros (t & H1 & H2).
    rewrite T_half in H1 by (try lia; exact Hone).
    rewrite T_half_mirror in H2 by (try lia; exact Hone).
    injection H1 as <-. injection H2 as H2. lra.
  - intros z z' H1 H2. rewrite Z_half in H1. rewrite Z_half_mirror in H2.
    injection H1 as <-. injection H2 as <-.
    rewrite Rabs_left by lra. lra.
  - intros t t' H1 H2.
    rewrite T_half in H1 by (try lia; exact Hone).
    rewrite T_half_mirror in H2 by (try lia; exact Hone).
    injection H1 as <-. injection H2 as <-.
    rewrite Rabs_right by lra. lra.
  - vm_compute. reflexivity.
  - intros libm_log. vm_compute. reflexivity.
  - vm_compute. reflexivity.
  - unfold StatsM.T. rewrite (Z_run 0.025) by lra.
    cbn [rbind StatsM.T_loop nth].
    rewrite py_div_int_overflow; [reflexivity |].
    unfold float_int_limit. vm_compute. discriminate.
Qed.

(** ** The unit tests of the class, replayed on the model *)

(** [test_empty]: a new object has count 0 and every statistic raises. *)
Example test_empty :
  let s := after StatsM.__init__ empty_stats in
  outcome StatsM.count s = Ok 0%Z /\
  outcome StatsM.min s = Raise (StatsException "minimum is undefined for less than one sample") /\
  outcome StatsM.max s = Raise (StatsException "maximum is undefined for less than one sample") /\
  outcome StatsM.mean s = Raise (StatsException "mean is undefined for less than one sample") /\
  outcome StatsM.var s = Raise (StatsException "variance is undefined for less than two samples") /\
  outcome StatsM.stddev s = Raise (StatsException "stddev is undefined for less than two samples") /\
  outcome StatsM.stderr s = Raise (StatsException "stderr is undefined for less than two samples") /\
  outcome (StatsM.conf 0.95) s =
    Raise (StatsException "confidence interval is undefined for less than two samples").
Proof. cbn. repeat split. Qed.

(** [test_add1]: after [add(1.0)], count, min, max and mean are defined, the
    variance family is not. *)
Example test_add1 :
  let s := add_all [1] (after StatsM.__init__ empty_stats) in
  outcome StatsM.count s = Ok 1%Z /\
  outcome StatsM.min s = Ok (Fin 1) /\
  outcome StatsM.max s = Ok (Fin 1) /\
  outcome StatsM.mean s = Ok 1 /\
  outcome StatsM.var s = Raise (StatsException "variance is undefined for less than two samples") /\
  outcome StatsM.stddev s = Raise (StatsException "stddev is undefined for less than two samples") /\
  outcome StatsM.stderr s = Raise (StatsException "stderr is undefined for less than two samples") /\
  outcome (StatsM.conf 0.95) s =
    Raise (StatsException "confidence interval is undefined for less than two samples").
Proof.
  cbn zeta. change (after StatsM.__init__ empty_stats) with empty_stats.
  unfold outcome.
  assert (Hc : _count (add_all [1] empty_stats) = 1%Z) by reflexivity.
  rewrite count_run, min_run, max_run, mean_run, var_raise, stddev_raise,
    stderr_raise, conf_raise by (rewrite Hc; lia).
  cbn [fst]. rewrite Hc.
  destruct (add_all_empty 1 []) as (_ & Hmin & Hmax & HK & HEx & _).
  cbn zeta in Hmin, Hmax, HK, HEx. rewrite Hmin, Hmax, HK, HEx.
  cbn [fold_left map Rsum fold_right].
  repeat split. f_equal. lra.
Qed.

(** [test_addMany]: the statistics of 1.0, 2.0, 3.0, 4.0; the variance
    1.6666667 of the test is 5/3. *)
Example test_addMany :
  let s := add_all [1; 2; 3; 4] (after StatsM.__init__ empty_stats) in
  outcome StatsM.count s = Ok 4%Z /\
  outcome StatsM.min s = Ok (Fin 1) /\
  outcome StatsM.max s = Ok (Fin 4) /\
  outcome StatsM.mean s = Ok 2.5 /\
  outcome StatsM.var s = Ok (5 / 3).
Proof.
  cbn zeta. change (after StatsM.__init__ empty_stats) with empty_stats.
  unfold outcome.
  assert (Hc : _count (add_all [1; 2; 3; 4] empty_stats) = 4%Z)
    by (rewrite count_add_all_empty; reflexivity).
  rewrite count_run, min_run, max_run, mean_run, var_run by (rewrite Hc; lia).
  cbn [fst]. rewrite Hc.
  destruct (add_all_empty 1 [2; 3; 4]) as (_ & Hmin & Hmax & HK & HEx & HEx2 & _).
  cbn zeta in Hmin, Hmax, HK, HEx, HEx2. rewrite Hmin, Hmax, HK, HEx, HEx2.
  rewrite fold_py_min_fin, fold_py_max_fin.
  cbn [fold_left map Rsum fold_right].
  repeat split.
  - do 2 f_equal. unfold Rmin. repeat (destruct (Rle_dec _ _); try lra).
  - do 2 f_equal. unfold Rmax. repeat (destruct (Rle_dec _ _); try lra).
  - f_equal. lra.
  - f_equal. change (4 - 1)%Z with 3%Z. lra.
Qed.

(** [test_remove]: [remove] raises, whatever was added before. *)
Example test_remove :
  let s := add_all [1] (after StatsM.__init__ empty_stats) in
  outcome (StatsM.remove 2) s =
    Raise (StatsException "the removal of values is not implemented").
Proof. reflexivity. Qed.

(** * Further properties of the class *)

(** ** The state is a function of the values added since the last reset *)

Lemma step_query (c : call) (self : Stats) :
  match c with
  | CallAdd _ | CallRemove _ | CallReset => True
  | _ => step c self = self
  end.
Proof.
  destruct c; cbn [step]; trivial;
    first [ apply readonly_count | apply readonly_sum | apply readonly_min
          | apply readonly_max | apply readonly_mean | apply readonly_var
          | apply readonly_stddev | apply readonly_stderr | apply readonly_conf ].
Qed.

Lemma run_pending_from (cs : list call) (acc : list R) :
  run cs (add_all acc empty_stats) = add_all (pending_from acc cs) empty_stats.
Proof.
  revert acc. induction cs as [| c cs IH]; intros acc; [reflexivity |].
  unfold run. cbn [fold_left]. fold (run cs).
  pose proof (step_query c (add_all acc empty_stats)) as Hq.
  destruct c; cbn [pending_from]; try (rewrite Hq; apply IH).
  - cbn [step]. rewrite <- IH, add_all_app. reflexivity.
  - cbn [step]. rewrite after_remove. apply (IH []).
  - cbn [step]. rewrite after_reset. apply (IH []).
Qed.

(** Whatever calls are made on a new object, in whatever order, the object
    ends in the state that adding the values of the [add] calls made after
    the last [reset] or [remove] gives on an empty accumulator: queries,
    failed or not, leave no trace, and nothing earlier than the last reset
    survives. *)
Theorem run_is_pending_adds (blank : Stats) (cs : list call) :
  run cs (after StatsM.__init__ blank) = add_all (pending cs) empty_stats.
Proof. apply (run_pending_from cs []). Qed.

(** ** What the basic queries return *)

(** After the values [xs] have been added to a reset accumulator, [count()]
    is their number, and when there is at least one, [sum()] is their sum
    and [mean()] their arithmetic mean. *)
Theorem count_sum_mean_of_values (blank : Stats) (xs : list R) :
  let s := add_all xs (after StatsM.reset blank) in
  StatsM.count s = (Ok (Z.of_nat (List.length xs)), s) /\
  (xs <> [] ->
   StatsM.sum s = (Ok (Rsum xs), s) /\
   StatsM.mean s = (Ok (ref_mean xs), s)).
Proof.
  rewrite after_reset. cbn zeta. split.
  - rewrite count_run, count_add_all_empty. reflexivity.
  - intros Hne.
    assert (Hc : (1 <= _count (add_all xs empty_stats))%Z).
    { rewrite count_add_all_empty. destruct xs; [contradiction | cbn; lia]. }
    rewrite sum_run, mean_run by exact Hc.
    destruct (mean_formula_ref xs Hne) as [Hm _]. cbn zeta in Hm. rewrite Hm.
    split; [| reflexivity].
    destruct xs as [| x xs]; [contradiction |].
    destruct (add_all_empty x xs) as (_ & _ & _ & _ & _ & _ & Hsum).
    cbn zeta in Hsum. rewrite Hsum. reflexivity.
Qed.

(** After at least one value has been added to a reset accumulator,
    [min()] returns the least and [max()] the greatest of the values
    added; both are finite values that were added. *)
Theorem min_max_of_values (blank : Stats) (xs : list R) :
  xs <> [] ->
  let s := add_all xs (after StatsM.reset blank) in
  exists lo hi,
    StatsM.min s = (Ok (Fin lo), s) /\
    StatsM.max s = (Ok (Fin hi), s) /\
    least lo xs /\ greatest hi xs.
Proof.
  intros Hne. rewrite after_reset. cbn zeta.
  assert (Hc : (1 <= _count (add_all xs empty_stats))%Z).
  { rewrite count_add_all_empty. destruct xs; [contradiction | cbn; lia]. }
  destruct (min_max_add_all xs Hne) as (lo & hi & Hmin & Hmax & Hlo & Hhi).
  exists lo, hi. rewrite min_run, max_run, Hmin, Hmax by exact Hc.
  repeat split; solve [apply Hlo | apply Hhi].
Qed.

Lemma min_max_of_values_witness :
  let s := add_all [3; 1; 2] (after StatsM.reset empty_stats) in
  exists lo hi,
    StatsM.min s = (Ok (Fin lo), s) /\
    StatsM.max s = (Ok (Fin hi), s) /\
    least lo [3; 1; 2] /\ greatest hi [3; 1; 2].
Proof.
  apply (min_max_of_values empty_stats [3; 1; 2]). discriminate.
Defined.

(** The representation kept by [add]: the anchor is the first value added
    since the reset and does not move afterwards; the two centred sums are
    the sums of the deviations from it and of their squares. *)
Theorem anchor_is_first_value (blank : Stats) (x : R) (xs : list R) :
  let s := add_all (x :: xs) (after StatsM.reset blank) in
  _K s = x /\
  _Ex s = Rsum (map (fun y => y - x) (x :: xs)) /\
  _Ex2 s = Rsum (map (fun y => (y - x) * (y - x)) (x :: xs)).
Proof.
  rewrite after_reset.
  destruct (add_all_empty x xs) as (_ & _ & _ & HK & HEx & HEx2 & _).
  cbn zeta in *. auto.
Qed.

(** ** One more value *)

(** Adding a value to an accumulator that holds at least one moves the mean
    by the running-mean step: mean' = mean + (value - mean) / (count + 1).
    This holds in any state with count >= 1, and [add] does not fail. *)
Theorem add_updates_mean (self : Stats) (value : R) :
  (1 <= _count self)%Z ->
  exists m m',
    StatsM.mean self = (Ok m, self) /\
    StatsM.add value self = (Ok tt, after (StatsM.add value) self) /\
    StatsM.mean (after (StatsM.add value) self) =
      (Ok m', after (StatsM.add value) self) /\
    m' = m + (value - m) / IZR (_count self + 1).
Proof.
  intros Hc. eexists. eexists.
  split; [apply mean_run; exact Hc |].
  split; [unfold after; rewrite add_run; reflexivity |].
  split; [apply mean_run; rewrite after_add; cbn; lia |].
  rewrite after_add. cbn zeta.
  destruct (Z.eqb_spec (_count self) 0) as [E | _]; [lia |].
  cbn [_K _Ex _count]. rewrite plus_IZR.
  assert (0 < IZR (_count self)) by (apply IZR_lt; lia).
  field. lra.
Qed.

Lemma add_updates_mean_witness :
  let self := add_all [1; 2] empty_stats in
  exists m m',
    StatsM.mean self = (Ok m, self) /\
    StatsM.add 6 self = (Ok tt, after (StatsM.add 6) self) /\
    StatsM.mean (after (StatsM.add 6) self) = (Ok m', after (StatsM.add 6) self) /\
    m' = m + (6 - m) / IZR (_count self + 1).
Proof.
  apply (add_updates_mean (add_all [1; 2] empty_stats) 6). cbn. lia.
Defined.

(** Adding a value can only lower the minimum and raise the maximum, and the
    new extremes bound the value added; this holds in every state, also on
    the infinities of an empty accumulator. *)
Theorem add_widens_extremes (self : Stats) (value : R) :
  let s' := after (StatsM.add value) self in
  xle (_minimum s') (_minimum self) /\ xle (_minimum s') (Fin value) /\
  xle (_maximum self) (_maximum s') /\ xle (Fin value) (_maximum s').
Proof.
  cbn zeta. rewrite after_add. cbn [_minimum _maximum].
  unfold py_min, py_max.
  destruct (_minimum self) as [| lo |], (_maximum self) as [| hi |]; cbn;
    repeat match goal with
           | |- context [Rlt_dec ?a ?b] => destruct (Rlt_dec a b)
           | |- context [Rgt_dec ?a ?b] => destruct (Rgt_dec a b)
           end; cbn; repeat split; try lra.
Qed.

(** ** Invariants of reachable states *)

(** In every reachable state the count is not negative, the sum of squared
    deviations [_Ex2] is not negative, and with at least one sample the
    extremes are finite with minimum <= maximum. *)
Theorem reachable_invariants (self : Stats) :
  reachable self ->
  (0 <= _count self)%Z /\
  0 <= _Ex2 self /\
  ((1 <= _count self)%Z ->
   exists lo hi, _minimum self = Fin lo /\ _maximum self = Fin hi /\ lo <= hi).
Proof.
  intros Hr. split; [apply count_nonneg; exact Hr |]. split.
  - apply reachable_add_all in Hr. destruct Hr as [xs ->].
    destruct xs as [| x xs]; [cbn; lra |].
    destruct (add_all_empty x xs) as (_ & _ & _ & _ & _ & HEx2 & _).
    cbn zeta in HEx2. rewrite HEx2. apply Rsum_sq_nonneg.
  - intros Hc. destruct (reachable_nonempty self Hr Hc) as (xs & Hne & ->).
    destruct (min_max_add_all xs Hne) as (lo & hi & Hmin & Hmax & Hlo & Hhi).
    exists lo, hi. repeat split; try assumption.
    destruct (ref_mean_between lo hi xs Hne Hlo Hhi). lra.
Qed.

Lemma reachable_invariants_witness :
  let self := step (CallAdd 2) (step (CallAdd 1) (after StatsM.__init__ empty_stats)) in
  (0 <= _count self)%Z /\
  0 <= _Ex2 self /\
  ((1 <= _count self)%Z ->
   exists lo hi, _minimum self = Fin lo /\ _maximum self = Fin hi /\ lo <= hi).
Proof. apply reachable_invariants. exact two_adds_reachable. Defined.

(** ** Zero variance *)

Lemma Rsum_sq_zero (c : R) (xs : list R) :
  Rsum (map (fun x => (x - c) * (x - c)) xs) = 0 -> forall y, In y xs -> y = c.
Proof.
  induction xs as [| x xs IH]; intros H y Hy; [destruct Hy |].
  cbn [map] in H. rewrite Rsum_cons in H.
  pose proof (Rsum_sq_nonneg c xs) as Hrest.
  pose proof (Rle_0_sqr (x - c)) as Hx. unfold Rsqr in Hx.
  destruct Hy as [<- | Hy].
  - assert (Hz : (x - c) * (x - c) = 0) by lra.
    apply Rmult_integral in Hz. lra.
  - apply IH; [lra | exact Hy].
Qed.

(** With two values or more, [var()] returns 0 exactly when all the values
    added are equal. *)
Theorem var_zero_iff_constant (blank : Stats) (xs : list R) :
  (2 <= List.length xs)%nat ->
  let s := add_all xs (after StatsM.reset blank) in
  StatsM.var s = (Ok 0, s) <-> (forall x y, In x xs -> In y xs -> x = y).
Proof.
  intros Hlen. rewrite after_reset. cbn zeta.
  rewrite var_run by (rewrite count_add_all_empty; lia).
  pose proof (var_formula_ref xs Hlen) as Hv. cbn zeta in Hv. rewrite Hv.
  pose proof (len_ge xs 2 Hlen) as Hn. cbn in Hn.
  split.
  - intros H. injection H as H. unfold ref_var in H.
    assert (Hs : Rsum (map (fun x => (x - ref_mean xs) * (x - ref_mean xs)) xs) = 0).
    { apply Rmult_integral in H. destruct H as [H | H]; [exact H |].
      exfalso. revert H. apply Rinv_neq_0_compat. lra. }
    intros x y Hx Hy.
    rewrite (Rsum_sq_zero _ _ Hs x Hx), (Rsum_sq_zero _ _ Hs y Hy). reflexivity.
  - intros Hall. f_equal. f_equal.
    destruct xs as [| v xs]; [cbn in Hlen; lia |].
    assert (Hsame : forall y, In y (v :: xs) -> y = v).
    { intros y Hy. apply Hall; [exact Hy | left; reflexivity]. }
    assert (Hne : v :: xs <> []) by discriminate.
    destruct (ref_mean_between v v (v :: xs) Hne) as [H1 H2].
    { split; [left; reflexivity |]. intros y Hy. rewrite (Hsame y Hy). lra. }
    { split; [left; reflexivity |]. intros y Hy. rewrite (Hsame y Hy). lra. }
    unfold ref_var. rewrite Rsum_map_zero.
    + unfold Rdiv. apply Rmult_0_l.
    + intros y Hy. rewrite (Hsame y Hy).
      replace (ref_mean (v :: xs)) with v by lra. ring.
Qed.

Lemma var_zero_iff_constant_witness :
  let s := add_all [4; 4] (after StatsM.reset empty_stats) in
  StatsM.var s = (Ok 0, s) <-> (forall x y, In x [4; 4] -> In y [4; 4] -> x = y).
Proof.
  apply (var_zero_iff_constant empty_stats [4; 4]). cbn. lia.
Defined.

(** ** Standard deviation, standard error, variance *)

(** With two samples or more, in any state, [var()] returns a value v.
    When v is not negative, [stddev()] and [stderr()] return values that
    fit with it: stddev() squared is v, stderr() is stddev() divided by the
    square root of the count, and neither is negative.  When v is negative
    (not possible in exact arithmetic, possible after binary64 overflow),
    [stddev()] raises [ValueError]. *)
Theorem stddev_stderr_var (self : Stats) :
  (2 <= _count self)%Z ->
  exists v,
    StatsM.var self = (Ok v, self) /\
    (0 <= v ->
     exists sd se,
       StatsM.stddev self = (Ok sd, self) /\
       StatsM.stderr self = (Ok se, self) /\
       0 <= sd /\ 0 <= se /\
       sd * sd = v /\
       se = sd / sqrt (IZR (_count self)) /\
       se * se * IZR (_count self) = v) /\
    (v < 0 -> StatsM.stddev self = (Raise ValueError, self)).
Proof.
  intros Hc. exists (var_formula self).
  assert (Hn : 0 < IZR (_count self)) by (apply IZR_lt; lia).
  split; [apply var_run_formula; exact Hc |]. split.
  - intros Hv.
    assert (Hq : 0 <= var_formula self / IZR (_count self)).
    { apply Rmult_le_pos; [exact Hv | left; apply Rinv_0_lt_compat; exact Hn]. }
    eexists. eexists.
    split; [rewrite (stddev_any self Hc); rewrite math_sqrt_ok by exact Hv;
            reflexivity |].
    split; [rewrite (stderr_any self Hc); rewrite math_sqrt_ok by exact Hq;
            reflexivity |].
    split; [apply sqrt_pos |]. split; [apply sqrt_pos |].
    split; [apply sqrt_sqrt; exact Hv |].
    split; [apply sqrt_div_alt; exact Hn |].
    rewrite sqrt_sqrt by exact Hq. field. lra.
  - intros Hv. rewrite (stddev_any self Hc). unfold math_sqrt.
    destruct (Rlt_dec (var_formula self) 0); [reflexivity | contradiction].
Qed.

Lemma stddev_stderr_var_witness :
  let self := step (CallAdd 2) (step (CallAdd 1) (after StatsM.__init__ empty_stats)) in
  exists v,
    StatsM.var self = (Ok v, self) /\
    (0 <= v ->
     exists sd se,
       StatsM.stddev self = (Ok sd, self) /\
       StatsM.stderr self = (Ok se, self) /\
       0 <= sd /\ 0 <= se /\
       sd * sd = v /\
       se = sd / sqrt (IZR (_count self)) /\
       se * se * IZR (_count self) = v) /\
    (v < 0 -> StatsM.stddev self = (Raise ValueError, self)).
Proof.
  apply stddev_stderr_var. cbn. lia.
Defined.

(** ** Shifting and scaling the data *)

Lemma len_map (f : R -> R) (xs : list R) : len (map f xs) = len xs.
Proof. unfold len. rewrite length_map. reflexivity. Qed.

Lemma Rsum_affine (a c : R) (xs : list R) :
  Rsum (map (fun x => a * x + c) xs) = a * Rsum xs + len xs * c.
Proof.
  induction xs as [| x xs IH].
  - cbn. rewrite len_nil. ring.
  - cbn [map]. rewrite !Rsum_cons, IH, len_cons. ring.
Qed.

Lemma Rsum_scale (k : R) (f : R -> R) (xs : list R) :
  Rsum (map (fun x => k * f x) xs) = k * Rsum (map f xs).
Proof.
  induction xs as [| x xs IH].
  - cbn. ring.
  - cbn [map]. rewrite !Rsum_cons, IH. ring.
Qed.

Lemma ref_mean_affine (a c : R) (xs : list R) :
  xs <> [] -> ref_mean (map (fun x => a * x + c) xs) = a * ref_mean xs + c.
Proof.
  intros Hne. pose proof (len_pos xs Hne) as Hn.
  unfold ref_mean. rewrite Rsum_affine, len_map. field. lra.
Qed.

Lemma ref_var_affine (a c : R) (xs : list R) :
  xs <> [] -> ref_var (map (fun x => a * x + c) xs) = a * a * ref_var xs.
Proof.
  intros Hne. unfold ref_var.
  rewrite (ref_mean_affine a c xs Hne), len_map, map_map.
  rewrite (map_ext _ (fun x => (a * a) * ((x - ref_mean xs) * (x - ref_mean xs))))
    by (intros x; ring).
  rewrite (Rsum_scale (a * a) (fun x => (x - ref_mean xs) * (x - ref_mean xs))).
  unfold Rdiv. ring.
Qed.

(** Replacing every value x by a*x + c turns the mean m into a*m + c and
    the variance v into a*a*v; in particular shifting all the data leaves
    [var()] unchanged. *)
Theorem affine_data (blank blank' : Stats) (a c : R) (xs : list R) :
  xs <> [] ->
  let s := add_all xs (after StatsM.reset blank) in
  let s' := add_all (map (fun x => a * x + c) xs) (after StatsM.reset blank') in
  (exists m,
     StatsM.mean s = (Ok m, s) /\ StatsM.mean s' = (Ok (a * m + c), s')) /\
  ((2 <= List.length xs)%nat ->
   exists v,
     StatsM.var s = (Ok v, s) /\ StatsM.var s' = (Ok (a * a * v), s')).
Proof.
  intros Hne. rewrite !after_reset. cbn zeta.
  assert (Hne' : map (fun x => a * x + c) xs <> []).
  { destruct xs; [contradiction | discriminate]. }
  split.
  - exists (ref_mean xs).
    rewrite !mean_run
      by (rewrite count_add_all_empty; try rewrite length_map;
          destruct xs; [contradiction | cbn; lia]).
    destruct (mean_formula_ref xs Hne) as [H1 _].
    destruct (mean_formula_ref _ Hne') as [H2 _].
    cbn zeta in H1, H2. rewrite H1, H2, ref_mean_affine by exact Hne.
    split; reflexivity.
  - intros Hlen. exists (ref_var xs).
    rewrite !var_run by (rewrite count_add_all_empty; try rewrite length_map; lia).
    pose proof (var_formula_ref xs Hlen) as H1.
    pose proof (var_formula_ref (map (fun x => a * x + c) xs)
                  ltac:(rewrite length_map; exact Hlen)) as H2.
    cbn zeta in H1, H2. rewrite H1, H2, ref_var_affine by exact Hne.
    split; reflexivity.
Qed.

Lemma affine_data_witness :
  let s := add_all [1; 2; 4] (after StatsM.reset empty_stats) in
  let s' := add_all (map (fun x => 3 * x + 10) [1; 2; 4])
                    (after StatsM.reset empty_stats) in
  (exists m,
     StatsM.mean s = (Ok m, s) /\ StatsM.mean s' = (Ok (3 * m + 10), s')) /\
  ((2 <= List.length [1; 2; 4])%nat ->
   exists v,
     StatsM.var s = (Ok v, s) /\ StatsM.var s' = (Ok (3 * 3 * v), s')).
Proof.
  apply (affine_data empty_stats empty_stats 3 10 [1; 2; 4]). discriminate.
Defined.

(** ** Where the quantile approximations raise *)

Lemma Z_out_of_domain (p : R) : ~ (0 < p < 1) -> StatsM.Z p = Raise ValueError.
Proof.
  intros Hp. unfold StatsM.Z.
  destruct (Rgt_dec p 0.5) as [Hgt | Hngt]; unfold math_log.
  - destruct (Rle_dec (1 - p) 0); [reflexivity | exfalso; apply Hp; lra].
  - destruct (Rle_dec p 0); [reflexivity | exfalso; apply Hp; lra].
Qed.

(** [Z(p)] returns a value exactly when 0 < p < 1; for every other p,
    including the boundaries 0 and 1, the logarithm is taken of a number
    that is not positive and the call raises [ValueError]. *)
Theorem Z_domain (p : R) :
  (0 < p < 1 <-> exists z, StatsM.Z p = Ok z) /\
  (~ (0 < p < 1) <-> StatsM.Z p = Raise ValueError).
Proof.
  split; split.
  - intros Hp. eexists. apply Z_run. exact Hp.
  - intros [z Hz]. destruct (Rlt_dec 0 p) as [H0 |]; [destruct (Rlt_dec p 1) |].
    + split; assumption.
    + rewrite Z_out_of_domain in Hz by lra. discriminate.
    + rewrite Z_out_of_domain in Hz by lra. discriminate.
  - apply Z_out_of_domain.
  - intros He Hp. rewrite (Z_run p Hp) in He. discriminate.
Qed.

Lemma T_out_of_domain (p : R) (ndf : int) :
  ~ (0 < p < 1) -> StatsM.T p ndf = Raise ValueError.
Proof.
  intros Hp. unfold StatsM.T. rewrite (Z_out_of_domain p Hp). reflexivity.
Qed.

(** [T(p, ndf)] raises [ValueError] when p is outside (0, 1), whatever
    ndf is; for p inside, it raises [OverflowError] when ndf is too large
    in magnitude to convert to a float (2^1024 - 2^970 or more),
    [ZeroDivisionError] when ndf is 0, and returns a value for every other
    ndf, negative ones included. *)
Theorem T_outcomes (p : R) (ndf : int) :
  (~ (0 < p < 1) -> StatsM.T p ndf = Raise ValueError) /\
  (0 < p < 1 -> (float_int_limit <= Z.abs ndf)%Z ->
   StatsM.T p ndf = Raise OverflowError) /\
  (0 < p < 1 -> ndf = 0%Z -> StatsM.T p ndf = Raise ZeroDivisionError) /\
  (0 < p < 1 -> ndf <> 0%Z -> (Z.abs ndf < float_int_limit)%Z ->
   exists t, StatsM.T p ndf = Ok t).
Proof.
  split; [| split; [| split]].
  - apply T_out_of_domain.
  - intros Hp Hb. unfold StatsM.T. rewrite (Z_run p Hp).
    cbn [rbind StatsM.T_loop nth].
    rewrite py_div_int_overflow by exact Hb. reflexivity.
  - intros Hp ->. unfold StatsM.T. rewrite (Z_run p Hp).
    cbn [rbind StatsM.T_loop nth]. unfold py_div_int at 1.
    destruct (Z.leb_spec float_int_limit (Z.abs 0)) as [Hle | _].
    { exfalso. revert Hle. unfold float_int_limit. vm_compute. auto. }
    unfold py_div.
    destruct (Req_dec_T (IZR 0) 0) as [_ | H]; [reflexivity | contradiction H; reflexivity].
  - intros Hp Hn Hb. eexists. apply (T_run p _ ndf (Z_run p Hp) Hn Hb).
Qed.

(** ** The levels [conf] accepts *)

Lemma conf_fudge_raise (self : Stats) (level : R) (e : exn) :
  (2 <= _count self)%Z ->
  (if ((_count self >? 1)%Z && (_count self <? 30)%Z)%bool
   then StatsM.T ((1.0 - level) / 2) (_count self - 1)
   else StatsM.Z ((1.0 - level) / 2)) = Raise e ->
  StatsM.conf level self = (Raise e, self).
Proof.
  intros Hc Hf. unfold StatsM.conf, bind at 1, get.
  destruct (Z.ltb_spec (_count self) 2); [lia |].
  cbn zeta. unfold bind at 1.
  destruct ((_count self >? 1)%Z && (_count self <? 30)%Z)%bool;
    unfold lift; rewrite Hf; reflexivity.
Qed.

(** With two samples or more, in any state, [conf(level)] raises
    [ValueError] for every level >= 1, such as 1.0, and every level <= -1:
    the logarithm in [Z] is then taken of a number that is not positive,
    before the standard error is computed.  The object is unchanged. *)
Theorem conf_level_out_of_range (self : Stats) (level : R) :
  (2 <= _count self)%Z ->
  1 <= level \/ level <= -1 ->
  StatsM.conf level self = (Raise ValueError, self).
Proof.
  intros Hc Hl.
  assert (Hcen : ~ (0 < (1.0 - level) / 2 < 1)) by (intros H; lra).
  apply conf_fudge_raise; [exact Hc |].
  destruct ((_count self >? 1)%Z && (_count self <? 30)%Z)%bool.
  - apply T_out_of_domain. exact Hcen.
  - apply Z_out_of_domain. exact Hcen.
Qed.

Lemma conf_level_out_of_range_witness :
  let self := step (CallAdd 2) (step (CallAdd 1) (after StatsM.__init__ empty_stats)) in
  StatsM.conf 1.0 self = (Raise ValueError, self).
Proof.
  apply conf_level_out_of_range; [cbn; lia | left; lra].
Defined.

(** ** [Z] decreases on each half of (0, 1) *)

(** The correction n/d of the rational approximation decreases as its
    argument grows. *)
Lemma Z_ratio_decreasing (s t : R) :
  0 <= s -> s <= t -> Z_num t / Z_den t <= Z_num s / Z_den s.
Proof.
  intros Hs Hst.
  pose proof (Z_den_ge_1 s Hs) as Hds.
  pose proof (Z_den_ge_1 t ltac:(lra)) as Hdt.
  apply Rmult_le_reg_r with (Z_den t * Z_den s); [nra |].
  replace (Z_num t / Z_den t * (Z_den t * Z_den s)) with (Z_num t * Z_den s)
    by (field; lra).
  replace (Z_num s / Z_den s * (Z_den t * Z_den s)) with (Z_num s * Z_den t)
    by (field; lra).
  assert (Hfac : Z_num s * Z_den t - Z_num t * Z_den s =
    (t - s) *
    ((2.515517 * 1.43278 - 0.802853)
     + (2.515517 * 0.189269 - 0.010328) * (t + s)
     + 2.515517 * 0.0013080 * (t * t + t * s + s * s)
     + (0.802853 * 0.189269 - 0.010328 * 1.43278) * (s * t)
     + 0.802853 * 0.0013080 * (s * t * (t + s))
     + 0.010328 * 0.0013080 * (s * s * (t * t)))).
  { unfold Z_num, Z_den. lra. }
  assert (Hst' : 0 <= s * t) by nra.
  assert (0 <= s * s) by nra. assert (0 <= t * t) by nra.
  assert (0 <= t * s) by nra.
  assert (0 <= s * t * (t + s)) by nra.
  assert (0 <= s * s * (t * t)) by nra.
  assert (Hg : 0 <=
     (2.515517 * 1.43278 - 0.802853)
     + (2.515517 * 0.189269 - 0.010328) * (t + s)
     + 2.515517 * 0.0013080 * (t * t + t * s + s * s)
     + (0.802853 * 0.189269 - 0.010328 * 1.43278) * (s * t)
     + 0.802853 * 0.0013080 * (s * t * (t + s))
     + 0.010328 * 0.0013080 * (s * s * (t * t))) by lra.
  assert (0 <= Z_num s * Z_den t - Z_num t * Z_den s).
  { rewrite Hfac. apply Rmult_le_pos; lra. }
  lra.
Qed.

(** On the lower tail the approximation strictly decreases in [q]. *)
Lemma Z_lower_decreasing (q1 q2 : R) :
  0 < q1 -> q1 < q2 -> q2 <= 1 -> Z_lower q2 < Z_lower q1.
Proof.
  intros H1 H12 H2. unfold Z_lower. cbn zeta.
  assert (Hln : ln q1 < ln q2) by (apply ln_increasing; lra).
  assert (Hln2 : ln q2 <= 0).
  { destruct (Req_dec q2 1) as [-> | Hne]; [rewrite ln_1; lra |].
    left. apply ln_neg. lra. }
  assert (Ht : sqrt (-2.0 * ln q2) < sqrt (-2.0 * ln q1))
    by (apply sqrt_lt_1_alt; lra).
  pose proof (sqrt_pos (-2.0 * ln q2)) as Hpos.
  pose proof (Z_ratio_decreasing (sqrt (-2.0 * ln q2)) (sqrt (-2.0 * ln q1))
                Hpos ltac:(lra)).
  lra.
Qed.

(** [Z] is strictly decreasing on (0, 0.5] and on (0.5, 1): a smaller tail
    probability gives a larger quantile, as long as both arguments lie on
    the same side of the symmetry point. *)
Theorem Z_decreasing (p1 p2 : R) :
  0 < p1 -> p1 < p2 -> p2 < 1 ->
  p2 <= 0.5 \/ 0.5 < p1 ->
  exists z1 z2, StatsM.Z p1 = Ok z1 /\ StatsM.Z p2 = Ok z2 /\ z2 < z1.
Proof.
  intros H1 H12 H2 Hside.
  rewrite (Z_run p1), (Z_run p2) by lra. unfold Z_tail.
  destruct (Rgt_dec p1 0.5), (Rgt_dec p2 0.5); try lra;
    eexists; eexists; (split; [reflexivity |]); (split; [reflexivity |]).
  - pose proof (Z_lower_decreasing (1 - p2) (1 - p1)). lra.
  - apply Z_lower_decreasing; lra.
Qed.

Lemma Z_decreasing_witness :
  exists z1 z2, StatsM.Z 0.005 = Ok z1 /\ StatsM.Z 0.025 = Ok z2 /\ z2 < z1.
Proof.
  apply Z_decreasing; [lra | lra | lra | left; lra].
Defined.

(** From 30 samples on the multiplier is [Z]'s. *)
Lemma conf_large_run (self : Stats) (level z se : R) :
  (30 <= _count self)%Z ->
  StatsM.Z ((1.0 - level) / 2) = Ok z ->
  StatsM.stderr self = (Ok se, self) ->
  StatsM.conf level self = (Ok (z * se), self).
Proof.
  intros Hc Hz Hse.
  apply conf_run; [lia | | exact Hse].
  destruct (Z.ltb_spec (_count self) 30); [lia |].
  rewrite Bool.andb_false_r. exact Hz.
Qed.

(** What [stderr()] returns is a square root, hence not negative. *)
Lemma stderr_value_nonneg (self : Stats) (se : R) :
  StatsM.stderr self = (Ok se, self) -> 0 <= se.
Proof.
  unfold StatsM.stderr, bind at 1, get.
  destruct (_count self <? 2)%Z; [discriminate |].
  unfold bind at 1. destruct (StatsM.var self) as [[v | e] s']; [| discriminate].
  unfold bind at 1, get. unfold bind, lift.
  destruct (py_div v (IZR (_count s'))) as [q | e]; [| discriminate].
  unfold math_sqrt. destruct (Rlt_dec q 0); [discriminate |].
  intros H. injection H as <- _. apply sqrt_pos.
Qed.

Lemma Z_centered_increasing (level1 level2 : R) :
  0 < level1 -> level1 < level2 -> level2 < 1 ->
  exists z1 z2,
    StatsM.Z ((1.0 - level1) / 2) = Ok z1 /\
    StatsM.Z ((1.0 - level2) / 2) = Ok z2 /\ z1 < z2.
Proof.
  intros H1 H12 H2.
  rewrite (Z_run ((1.0 - level1) / 2)), (Z_run ((1.0 - level2) / 2)) by lra.
  unfold Z_tail.
  destruct (Rgt_dec ((1.0 - level1) / 2) 0.5), (Rgt_dec ((1.0 - level2) / 2) 0.5);
    try lra.
  eexists. eexists. split; [reflexivity |]. split; [reflexivity |].
  apply Z_lower_decreasing; lra.
Qed.

(** With 30 samples or more, whenever [stderr()] returns, a higher
    confidence level never gives a narrower interval: for
    0 < level1 <= level2 < 1, both calls of [conf] return and
    conf(level1) <= conf(level2). *)
Theorem conf_monotone_large_sample (self : Stats) (level1 level2 se : R) :
  (30 <= _count self)%Z ->
  StatsM.stderr self = (Ok se, self) ->
  0 < level1 -> level1 <= level2 -> level2 < 1 ->
  exists w1 w2,
    StatsM.conf level1 self = (Ok w1, self) /\
    StatsM.conf level2 self = (Ok w2, self) /\
    w1 <= w2.
Proof.
  intros Hc Hs H1 H12 H2.
  pose proof (stderr_value_nonneg self se Hs) as Hse.
  destruct (Req_dec level1 level2) as [<- | Hne].
  - destruct (Z_centered_ok level1 ltac:(lra)) as [z Hz].
    exists (z * se), (z * se).
    repeat split; try (apply conf_large_run; assumption). lra.
  - destruct (Z_centered_increasing level1 level2)
      as (z1 & z2 & Hz1 & Hz2 & Hlt); try lra.
    exists (z1 * se), (z2 * se).
    repeat split; try (apply conf_large_run; assumption).
    apply Rmult_le_compat_r; lra.
Qed.

(** Thirty samples with a spread: 29 times 1, then 2. *)
Lemma spread_30_count : (30 <= _count (add_all (repeat 1%R 29 ++ [2%R]) empty_stats))%Z.
Proof. rewrite count_add_all_empty. cbn. lia. Qed.

Lemma spread_30_stderr :
  exists se,
    StatsM.stderr (add_all (repeat 1%R 29 ++ [2%R]) empty_stats) =
    (Ok se, add_all (repeat 1%R 29 ++ [2%R]) empty_stats).
Proof.
  eexists. apply stderr_run.
  - apply reachable_add_all. eexists. reflexivity.
  - pose proof spread_30_count. lia.
Qed.

Lemma conf_monotone_large_sample_witness :
  let self := add_all (repeat 1%R 29 ++ [2%R]) empty_stats in
  exists se w1 w2,
    StatsM.stderr self = (Ok se, self) /\
    StatsM.conf 0.9 self = (Ok w1, self) /\
    StatsM.conf 0.95 self = (Ok w2, self) /\
    w1 <= w2.
Proof.
  cbn zeta. destruct spread_30_stderr as [se Hse]. exists se.
  destruct (conf_monotone_large_sample _ 0.9 0.95 se spread_30_count Hse)
    as (w1 & w2 & H1 & H2 & H3); [lra | lra | lra |].
  exists w1, w2. repeat split; assumption.
Defined.

(** ** The Student correction keeps the sign of [Z] *)

Lemma scale_lower (r y e : R) : 0 < r <= 1 -> 0 <= e -> - e <= y -> - e <= r * y.
Proof. intros Hr He Hy. nra. Qed.

(** For one degree of freedom or more, the four-term correction is not
    negative: it never brings the magnitude below [|Z(p)|]. *)
Lemma T_upper_lower_bound (z : R) (ndf : int) :
  (1 <= ndf)%Z -> Rabs z <= T_upper z ndf.
Proof.
  intros Hn. unfold T_upper, T_terms. cbn [nth].
  pose proof (Rabs_pos z) as Hz.
  set (z1 := Rabs z) in *. set (z2 := z1 * z1).
  assert (Hz2 : 0 <= z2) by (unfold z2; nra).
  set (a0 := z2 + 1.0).
  set (a1 := (5.0 * z2 + 16.0) * z2 + 3.0).
  set (a2 := (3.0 * z2 + 19.0) * z2 - 15.0).
  set (c := (79.0 * z2 + 776.0) * z2 + 1482.0).
  set (a3 := (c * z2 - 1920.0) * z2 - 945.0).
  assert (H0 : 0 <= a0) by (unfold a0; lra).
  assert (H1 : 0 <= a1) by (unfold a1; nra).
  assert (H2 : -15 <= a2) by (unfold a2; nra).
  assert (Hc : 1482 <= c) by (unfold c; nra).
  assert (H3 : -2865 <= a3).
  { unfold a3. pose proof (Rle_0_sqr (z2 - 1)) as Hsq. unfold Rsqr in Hsq.
    assert (0 <= (c - 1482) * (z2 * z2)) by (apply Rmult_le_pos; nra).
    nra. }
  assert (Hn' : 1 <= IZR ndf) by (apply IZR_le; exact Hn).
  set (n := IZR ndf) in *.
  assert (Hr : 0 < / n <= 1).
  { split; [apply Rinv_0_lt_compat; lra |].
    rewrite <- Rinv_1. apply Rinv_le_contravar; lra. }
  set (h0 := 0.25 * z1 * a0). set (h1 := 0.010416667 * z1 * a1).
  set (h2 := 0.002604167 * z1 * a2). set (h3 := z1 * a3 * 0.000010851).
  assert (Hh0 : 0.25 * z1 <= h0) by (unfold h0, a0; nra).
  assert (Hh1 : 0 <= h1) by (unfold h1; apply Rmult_le_pos; [lra | exact H1]).
  assert (Hh2 : - (0.04 * z1) <= h2) by (unfold h2; nra).
  assert (Hh3 : - (0.04 * z1) <= h3) by (unfold h3; nra).
  unfold Rdiv.
  pose proof (scale_lower (/ n) (0.0 + h3) (0.04 * z1) Hr ltac:(lra) ltac:(lra)) as S3.
  rewrite Rmult_comm in S3.
  pose proof (scale_lower (/ n) ((0.0 + h3) * / n + h2) (0.08 * z1) Hr
                ltac:(lra) ltac:(lra)) as S2.
  rewrite Rmult_comm in S2.
  pose proof (scale_lower (/ n) (((0.0 + h3) * / n + h2) * / n + h1) (0.08 * z1) Hr
                ltac:(lra) ltac:(lra)) as S1.
  rewrite Rmult_comm in S1.
  assert (S0 : 0 <= ((((0.0 + h3) * / n + h2) * / n + h1) * / n + h0) * / n)
    by (apply Rmult_le_pos; lra).
  lra.
Qed.

(** For p in (0, 1) and an integer ndf >= 1 that converts to a float,
    [T(p, ndf)] is at least as far from 0 as [Z(p)], is not negative for
    p <= 0.5 and not positive for p > 0.5: the Student quantile is never
    inside the Gaussian one and never on the other side. *)
Theorem T_keeps_side (p : R) (ndf : int) :
  0 < p < 1 -> (1 <= ndf < float_int_limit)%Z ->
  exists z t,
    StatsM.Z p = Ok z /\ StatsM.T p ndf = Ok t /\
    Rabs z <= Rabs t /\
    (p <= 0.5 -> 0 <= t) /\ (0.5 < p -> t <= 0).
Proof.
  intros Hp Hn. pose proof (Z_run p Hp) as Hz.
  pose proof (T_run p _ ndf Hz ltac:(lia) ltac:(lia)) as Ht.
  eexists. eexists. split; [exact Hz |]. split; [exact Ht |].
  match type of Hz with _ = Ok ?z =>
    pose proof (T_upper_lower_bound z ndf ltac:(lia)) as Hb;
    pose proof (Rabs_pos z) as Hpos
  end.
  destruct (Rgt_dec p 0.5).
  - rewrite (Rabs_Ropp (T_upper _ _)), (Rabs_right (T_upper _ _)) by lra.
    split; [exact Hb |]. split; intros; lra.
  - rewrite (Rabs_right (T_upper _ _)) by lra.
    split; [exact Hb |]. split; intros; lra.
Qed.

Lemma T_keeps_side_witness :
  exists z t,
    StatsM.Z 0.025 = Ok z /\ StatsM.T 0.025 3 = Ok t /\
    Rabs z <= Rabs t /\
    (0.025 <= 0.5 -> 0 <= t) /\ (0.5 < 0.025 -> t <= 0).
Proof.
  apply T_keeps_side; [lra |].
  split; [lia | unfold float_int_limit; reflexivity].
Defined.

(** With 2 to 29 samples and a level in (0, 1), whenever [stderr()]
    returns se, [conf(level)] returns a half-width that is not negative,
    and at least as wide as the Gaussian multiplier would give:
    conf(level) >= |Z(centered)| * se. *)
Theorem conf_nonneg_small_sample (self : Stats) (level se : R) :
  (2 <= _count self < 30)%Z ->
  StatsM.stderr self = (Ok se, self) ->
  0 < level < 1 ->
  exists w z,
    StatsM.conf level self = (Ok w, self) /\
    StatsM.Z ((1 - level) / 2) = Ok z /\
    0 <= w /\ Rabs z * se <= w.
Proof.
  intros Hc Hse Hl.
  pose proof (stderr_value_nonneg self se Hse) as Hs.
  assert (Hcen : 0 < (1.0 - level) / 2 < 1) by lra.
  pose proof (Z_run _ Hcen) as Hz.
  pose proof (T_run _ _ (_count self - 1) Hz ltac:(lia)
                ltac:(apply small_below_limit; lia)) as Ht.
  replace ((1 - level) / 2) with ((1.0 - level) / 2) by lra.
  eexists. eexists.
  split; [| split; [exact Hz |]].
  - apply conf_run; [lia | | exact Hse].
    destruct (Z.gtb_spec (_count self) 1); [| lia].
    destruct (Z.ltb_spec (_count self) 30); [| lia].
    exact Ht.
  - destruct (Rgt_dec ((1.0 - level) / 2) 0.5); [lra |].
    match goal with |- context [T_upper ?z ?n] =>
      pose proof (T_upper_lower_bound z n ltac:(lia)) as Hb;
      pose proof (Rabs_pos z) as Hp;
      set (a := Rabs z) in *; set (t := T_upper z n) in *
    end.
    split; [apply Rmult_le_pos; lra | apply Rmult_le_compat_r; lra].
Qed.

Lemma two_adds_stderr :
  exists se,
    StatsM.stderr (step (CallAdd 2) (step (CallAdd 1) (after StatsM.__init__ empty_stats)))
    = (Ok se, step (CallAdd 2) (step (CallAdd 1) (after StatsM.__init__ empty_stats))).
Proof.
  eexists. apply stderr_run; [exact two_adds_reachable | cbn; lia].
Qed.

Lemma conf_nonneg_small_sample_witness :
  let self := step (CallAdd 2) (step (CallAdd 1) (after StatsM.__init__ empty_stats)) in
  exists se w z,
    StatsM.stderr self = (Ok se, self) /\
    StatsM.conf 0.95 self = (Ok w, self) /\
    StatsM.Z ((1 - 0.95) / 2) = Ok z /\
    0 <= w /\ Rabs z * se <= w.
Proof.
  cbn zeta. destruct two_adds_stderr as [se Hse]. exists se.
  assert (Hc : (2 <= _count (step (CallAdd 2) (step (CallAdd 1)
                   (after StatsM.__init__ empty_stats))) < 30)%Z) by (cbn; lia).
  destruct (conf_nonneg_small_sample _ 0.95 se Hc Hse ltac:(lra))
    as (w & z & H1 & H2 & H3 & H4).
  exists w, z. repeat split; assumption.
Defined.

(** ** The sign of [Z] next to the symmetry point *)

Lemma IZR_div_succ_gt (a b : int) : (0 < b)%Z -> IZR a / IZR b < IZR (a / b + 1).
Proof.
  intros Hb.
  assert (Hb' : 0 < IZR b) by (apply IZR_lt; exact Hb).
  apply Rmult_lt_reg_r with (IZR b); [exact Hb' |].
  unfold Rdiv. rewrite Rmult_assoc, Rinv_l, Rmult_1_r by lra.
  rewrite <- mult_IZR. apply IZR_lt.
  rewrite Z.mul_comm. apply Z.mul_succ_div_gt. exact Hb.
Qed.

Lemma fx_start_neg_sound :
  IZR fx_start_neg / IZR fx_scale <= exp (- 0.693147 / 2 ^ 24).
Proof.
  pose proof fx_scale_pos as HS.
  apply Rle_trans with (1 + - 0.693147 / 2 ^ 24); [| apply exp_ineq1_le].
  unfold fx_start_neg. rewrite minus_IZR.
  pose proof (IZR_div_succ_gt (fx_scale * 693147) (10 ^ 6 * 2 ^ 24)
                ltac:(reflexivity)) as H.
  rewrite mult_IZR in H.
  replace (IZR (10 ^ 6 * 2 ^ 24)) with (1000000 * 2 ^ 24) in H.
  2:{ change (10 ^ 6 * 2 ^ 24)%Z with (1000000 * 2 ^ 24)%Z.
      rewrite mult_IZR, (pow_IZR 2 24). reflexivity. }
  apply Rle_trans with
    ((IZR fx_scale - IZR fx_scale * 693147 / (1000000 * 2 ^ 24)) / IZR fx_scale).
  - apply Rmult_le_compat_r; [left; apply Rinv_0_lt_compat; exact HS |]. lra.
  - right. replace (- 0.693147) with (- (693147 / 1000000)) by lra.
    generalize dependent (IZR fx_scale). intros S HS _.
    field. lra.
Qed.

Lemma ln_2_lower : 0.693147 < ln 2.
Proof.
  pose proof fx_scale_pos as HS.
  destruct (fx_iter_sound 24 fx_start_neg (- 0.693147 / 2 ^ 24)
              ltac:(vm_compute; discriminate) fx_start_neg_sound) as [_ H].
  replace (2 ^ 24 * (- 0.693147 / 2 ^ 24)) with (- 0.693147) in H
    by (field; apply pow_nonzero; lra).
  assert (Hhalf : / 2 < exp (- 0.693147)).
  { eapply Rlt_le_trans; [| exact H].
    apply lt_div_intro; [exact HS |].
    apply Rmult_lt_reg_l with 2; [lra |].
    replace (2 * (/ 2 * IZR fx_scale)) with (IZR fx_scale) by field.
    rewrite <- mult_IZR. apply IZR_lt. vm_compute. reflexivity. }
  apply exp_lt_inv. rewrite exp_ln by lra.
  replace (- 0.693147) with (- (0.693147)) in Hhalf by lra.
  rewrite exp_Ropp in Hhalf.
  pose proof (exp_pos 0.693147) as Hpos.
  assert (Hi : exp 0.693147 * / exp 0.693147 = 1) by (apply Rinv_r; lra).
  set (e := exp 0.693147) in *. set (i := / e) in *.
  assert (0 < e * (i - / 2)) by (apply Rmult_lt_0_compat; lra).
  lra.
Qed.

(** Bounds on the logarithm next to 1. *)
Lemma ln_one_minus (d : R) :
  0 < d < 1 -> - (d / (1 - d)) <= ln (1 - d) <= - d.
Proof.
  intros Hd. split.
  - pose proof (exp_ineq1_le (d / (1 - d))) as H.
    assert (Hinv : / (1 - d) <= exp (d / (1 - d))).
    { replace (/ (1 - d)) with (1 + d / (1 - d)) by (field; lra). exact H. }
    assert (ln (/ (1 - d)) <= d / (1 - d)).
    { rewrite <- (ln_exp (d / (1 - d))).
      destruct Hinv as [Hlt | Heq]; [left; apply ln_increasing |].
      - apply Rinv_0_lt_compat; lra.
      - exact Hlt.
      - right. rewrite Heq. reflexivity. }
    rewrite ln_Rinv in * by lra. lra.
  - pose proof (exp_ineq1_le (- d)) as H.
    rewrite <- (ln_exp (- d)).
    destruct H as [Hlt | Heq].
    + left. apply ln_increasing; lra.
    + right. replace (1 - d) with (1 + - d) by ring. rewrite Heq. reflexivity.
Qed.

Lemma ln_half_times (d : R) :
  0 < d < 1 -> ln (0.5 * (1 - d)) = - ln 2 + ln (1 - d).
Proof.
  intros Hd. rewrite ln_mult by lra.
  replace 0.5 with (/ 2) by lra. rewrite ln_Rinv by lra. reflexivity.
Qed.

(** The sign of t - n(t)/d(t) on either side of its root near 1.17741. *)
Lemma Z_core_sign (t : R) :
  0 <= t ->
  (t <= 1.1774119 -> t - Z_num t / Z_den t < 0) /\
  (1.1774132 <= t -> 0 < t - Z_num t / Z_den t).
Proof.
  intros Ht. pose proof (Z_den_ge_1 t Ht) as Hd.
  split; intros Hb.
  - assert (H2 : t * t <= 1.1774119 * 1.1774119) by nra.
    assert (H3 : t * t * t <= 1.1774119 * 1.1774119 * 1.1774119) by nra.
    assert (H4 : t * t * t * t
                 <= 1.1774119 * 1.1774119 * 1.1774119 * 1.1774119) by nra.
    assert (H : t < Z_num t / Z_den t); [| lra].
    apply lt_div_intro; [lra |]. unfold Z_num, Z_den. lra.
  - assert (H2 : 1.1774132 * 1.1774132 <= t * t) by nra.
    assert (H3 : 1.1774132 * 1.1774132 * 1.1774132 <= t * t * t) by nra.
    assert (H4 : 1.1774132 * 1.1774132 * 1.1774132 * 1.1774132
                 <= t * t * t * t) by nra.
    assert (H : Z_num t / Z_den t < t); [| lra].
    apply Rmult_lt_reg_r with (Z_den t); [lra |].
    unfold Rdiv. rewrite Rmult_assoc, Rinv_l by lra.
    unfold Z_num, Z_den. lra.
Qed.

Lemma Z_lower_negative_point : Z_lower 0.499999 < 0.
Proof.
  unfold Z_lower. cbn zeta.
  replace 0.499999 with (0.5 * (1 - 0.000002)) by lra.
  rewrite ln_half_times by lra.
  pose proof ln_2_upper as Hup. pose proof ln_lt_2 as Hlo.
  destruct (ln_one_minus 0.000002 ltac:(lra)) as [Hl1 Hl2].
  set (l := ln (1 - 0.000002)) in *.
  assert (Hw : 0 <= -2.0 * (- ln 2 + l) <= 1.1774119 * 1.1774119) by lra.
  pose proof (sqrt_pos (-2.0 * (- ln 2 + l))) as Hpos.
  pose proof (sqrt_sqrt (-2.0 * (- ln 2 + l)) ltac:(lra)) as Hsq.
  set (t := sqrt (-2.0 * (- ln 2 + l))) in *.
  apply Z_core_sign; [exact Hpos |].
  apply Rnot_lt_le. intros Hgt.
  assert (1.1774119 * 1.1774119 < t * t) by nra. lra.
Qed.

Lemma Z_lower_positive_point : 0 < Z_lower 0.499998.
Proof.
  unfold Z_lower. cbn zeta.
  replace 0.499998 with (0.5 * (1 - 0.000004)) by lra.
  rewrite ln_half_times by lra.
  pose proof ln_2_lower as Hlo.
  destruct (ln_one_minus 0.000004 ltac:(lra)) as [Hl1 Hl2].
  set (l := ln (1 - 0.000004)) in *.
  assert (Hw : 1.1774132 * 1.1774132 <= -2.0 * (- ln 2 + l)) by lra.
  pose proof (sqrt_pos (-2.0 * (- ln 2 + l))) as Hpos.
  pose proof (sqrt_sqrt (-2.0 * (- ln 2 + l)) ltac:(lra)) as Hsq.
  set (t := sqrt (-2.0 * (- ln 2 + l))) in *.
  apply Z_core_sign; [exact Hpos |].
  apply Rnot_lt_le. intros Hlt.
  assert (t * t < 1.1774132 * 1.1774132) by nra. lra.
Qed.

Lemma Z_lower_sign (q : R) :
  (0 < q <= 0.499998 -> 0 < Z_lower q) /\
  (0.499999 <= q <= 0.5 -> Z_lower q < 0).
Proof.
  split; intros Hq.
  - destruct (Req_dec q 0.499998) as [-> | Hne]; [exact Z_lower_positive_point |].
    pose proof (Z_lower_decreasing q 0.499998 ltac:(lra) ltac:(lra) ltac:(lra)).
    pose proof Z_lower_positive_point. lra.
  - destruct (Req_dec q 0.499999) as [-> | Hne]; [exact Z_lower_negative_point |].
    pose proof (Z_lower_decreasing 0.499999 q ltac:(lra) ltac:(lra) ltac:(lra)).
    pose proof Z_lower_negative_point. lra.
Qed.

Lemma Z_sign_lower_aux (p : R) :
  (0 < p <= 0.499998 -> exists z, StatsM.Z p = Ok z /\ 0 < z) /\
  (0.499999 <= p <= 0.5 -> exists z, StatsM.Z p = Ok z /\ z < 0).
Proof.
  split; intros Hp.
  - rewrite (Z_run p) by lra. unfold Z_tail.
    destruct (Rgt_dec p 0.5); [lra |].
    eexists. split; [reflexivity |]. apply Z_lower_sign. lra.
  - rewrite (Z_run p) by lra. unfold Z_tail.
    destruct (Rgt_dec p 0.5); [lra |].
    eexists. split; [reflexivity |]. apply Z_lower_sign. lra.
Qed.

(** [Z(p)] is positive for p up to 0.499998, but negative for p in
    [0.499999, 0.5]: just below the symmetry point the approximation lands
    on the wrong side of 0. *)
Theorem Z_sign_below_half (p : R) :
  (0 < p <= 0.499998 -> exists z, StatsM.Z p = Ok z /\ 0 < z) /\
  (0.499999 <= p <= 0.5 -> exists z, StatsM.Z p = Ok z /\ z < 0).
Proof. apply Z_sign_lower_aux. Qed.

(** With 30 samples or more, whenever [stderr()] returns se,
    [conf(level)] is not negative for levels from 0.000004 up, but for
    levels in (0, 0.000002] it returns a half-width that is not positive,
    and negative whenever se is not 0. *)
Theorem conf_sign_large_sample (self : Stats) (level se : R) :
  (30 <= _count self)%Z ->
  StatsM.stderr self = (Ok se, self) ->
  (0.000004 <= level < 1 ->
   exists w, StatsM.conf level self = (Ok w, self) /\ 0 <= w) /\
  (0 < level <= 0.000002 ->
   exists w,
     StatsM.conf level self = (Ok w, self) /\
     w <= 0 /\ (0 < se -> w < 0)).
Proof.
  intros Hc Hs. pose proof (stderr_value_nonneg self se Hs) as Hse.
  split; intros Hl.
  - destruct (proj1 (Z_sign_lower_aux ((1.0 - level) / 2))) as (z & Hz & Hpos);
      [lra |].
    eexists. split; [apply (conf_large_run self level z se); assumption |].
    apply Rmult_le_pos; lra.
  - destruct (proj2 (Z_sign_lower_aux ((1.0 - level) / 2))) as (z & Hz & Hneg);
      [lra |].
    exists (z * se). split; [apply conf_large_run; assumption |].
    split; [nra | intros; nra].
Qed.

(** The standard error of 29 ones and a two is positive. *)
Lemma spread_30_stderr_pos :
  exists se,
    StatsM.stderr (add_all (repeat 1%R 29 ++ [2%R]) empty_stats) =
    (Ok se, add_all (repeat 1%R 29 ++ [2%R]) empty_stats) /\ 0 < se.
Proof.
  set (xs := repeat 1%R 29 ++ [2%R]).
  assert (Hr : reachable (add_all xs empty_stats))
    by (apply reachable_add_all; eexists; reflexivity).
  pose proof spread_30_count as Hc. fold xs in Hc.
  eexists. split; [apply stderr_run; [exact Hr | lia] |].
  assert (Hlen : (2 <= List.length xs)%nat) by (cbn; lia).
  pose proof (var_formula_ref xs Hlen) as Hv. cbn zeta in Hv. rewrite Hv.
  assert (Hn : IZR (_count (add_all xs empty_stats)) = 30).
  { rewrite count_add_all_empty. reflexivity. }
  rewrite Hn.
  apply sqrt_lt_R0. apply Rdiv_lt_0_compat; [| lra].
  unfold ref_var. apply Rdiv_lt_0_compat.
  - assert (Hm : ref_mean xs < 2).
    { unfold ref_mean, len. cbn. lra. }
    assert (Hin : In 2 xs) by (apply in_or_app; right; left; reflexivity).
    clear Hv Hn Hc Hr Hlen. revert Hin. generalize (ref_mean xs) Hm.
    intros c Hc2. generalize xs. intros l. induction l as [| y l IH]; [intros [] |].
    intros [-> | Hin]; cbn [map]; rewrite Rsum_cons.
    + pose proof (Rsum_sq_nonneg c l). nra.
    + pose proof (Rle_0_sqr (y - c)) as Hy. unfold Rsqr in Hy.
      specialize (IH Hin). lra.
  - unfold len. cbn. lra.
Qed.

Lemma conf_sign_large_sample_witness :
  let self := add_all (repeat 1%R 29 ++ [2%R]) empty_stats in
  exists se w,
    StatsM.stderr self = (Ok se, self) /\ 0 < se /\
    StatsM.conf 0.000001 self = (Ok w, self) /\ w < 0.
Proof.
  cbn zeta. destruct spread_30_stderr_pos as (se & Hse & Hpos). exists se.
  destruct (conf_sign_large_sample _ 0.000001 se spread_30_count Hse) as [_ Hneg].
  destruct (Hneg ltac:(lra)) as (w & Hw & _ & Hlt).
  exists w. repeat split; try assumption. apply Hlt. exact Hpos.
Defined.

(** ** Constant data *)

Lemma ref_var_constant (v : R) (xs : list R) :
  xs <> [] -> (forall y, In y xs -> y = v) -> ref_var xs = 0.
Proof.
  intros Hne Hsame.
  destruct (ref_mean_between v v xs Hne) as [H1 H2].
  { destruct xs as [| x xs]; [contradiction |].
    split; [left; apply Hsame; left; reflexivity |].
    intros y Hy. rewrite (Hsame y Hy). lra. }
  { destruct xs as [| x xs]; [contradiction |].
    split; [left; apply Hsame; left; reflexivity |].
    intros y Hy. rewrite (Hsame y Hy). lra. }
  unfold ref_var. rewrite Rsum_map_zero.
  - unfold Rdiv. apply Rmult_0_l.
  - intros y Hy. rewrite (Hsame y Hy).
    replace (ref_mean xs) with v by lra. ring.
Qed.

(** When the same value has been added two times or more, the spread is
    exactly 0 throughout: [stddev()], [stderr()] and, for every level in
    (0, 1), [conf(level)] all return 0. *)
Theorem constant_data_no_spread (blank : Stats) (v level : R) (xs : list R) :
  (2 <= List.length xs)%nat ->
  (forall y, In y xs -> y = v) ->
  0 < level < 1 ->
  let s := add_all xs (after StatsM.reset blank) in
  StatsM.stddev s = (Ok 0, s) /\
  StatsM.stderr s = (Ok 0, s) /\
  StatsM.conf level s = (Ok 0, s).
Proof.
  intros Hlen Hsame Hl. rewrite after_reset. cbn zeta.
  set (s := add_all xs empty_stats).
  assert (Hr : reachable s) by (apply reachable_add_all; exists xs; reflexivity).
  assert (Hc : (2 <= _count s)%Z) by (unfold s; rewrite count_add_all_empty; lia).
  assert (Hne : xs <> []) by (destruct xs; [cbn in Hlen; lia | discriminate]).
  pose proof (var_formula_ref xs Hlen) as Hv. cbn zeta in Hv. fold s in Hv.
  rewrite (ref_var_constant v xs Hne Hsame) in Hv.
  assert (Hsd : StatsM.stddev s = (Ok 0, s)).
  { rewrite (stddev_run s Hr Hc), Hv, sqrt_0. reflexivity. }
  assert (Hse : StatsM.stderr s = (Ok 0, s)).
  { rewrite (stderr_run s Hr Hc), Hv. unfold Rdiv. rewrite Rmult_0_l, sqrt_0.
    reflexivity. }
  split; [exact Hsd |]. split; [exact Hse |].
  destruct (conf_multiplier_ok s level Hc Hl) as (m & Hm & _).
  rewrite (conf_run s level m 0 Hc Hm Hse), Rmult_0_r. reflexivity.
Qed.

Lemma constant_data_no_spread_witness :
  let s := add_all [5; 5; 5] (after StatsM.reset empty_stats) in
  StatsM.stddev s = (Ok 0, s) /\
  StatsM.stderr s = (Ok 0, s) /\
  StatsM.conf 0.95 s = (Ok 0, s).
Proof.
  apply (constant_data_no_spread empty_stats 5 0.95 [5; 5; 5]).
  - cbn. lia.
  - intros y [<- | [<- | [<- | []]]]; reflexivity.
  - lra.
Defined.

(** * The class in binary64 *)

(** ** The unit test [test_addMany], run on binary64 floats *)

Example test_addMany_binary64 :
  let s := Float64.add_all Float64.one_to_four Float64.new in
  Float64.outcome Float64.count s = Ok 4%Z /\
  Float64.outcome Float64.mean s = Ok Float64.expected_mean /\
  Float64.outcome Float64.var s = Ok Float64.expected_var /\
  Float64.outcome Float64.stddev s = Ok Float64.expected_stddev.
Proof. vm_compute. repeat split. Qed.

(** ** Overflow of the square of the centred sum *)

(** [conf] cannot return when [stderr] raises: whatever the multiplier
    does, the call ends in an exception. *)
Lemma binary64_conf_raises (libm_log : PrimFloat.float -> PrimFloat.float)
    (level : PrimFloat.float) (s : Float64.Stats) (e : exn) :
  (2 <= Float64._count s)%Z ->
  Float64.stderr s = (Raise e, s) ->
  exists e', Float64.conf libm_log level s = (Raise e', s).
Proof.
  intros Hc Hse. unfold Float64.conf, Float64.bind at 1, Float64.get.
  destruct (Z.ltb_spec (Float64._count s) 2); [lia |].
  cbn zeta. unfold Float64.bind at 1.
  destruct ((Float64._count s >? 1)%Z && (Float64._count s <? 30)%Z)%bool;
    unfold Float64.lift.
  - destruct (Float64.T libm_log _ _) as [f | e'].
    + unfold Float64.bind. rewrite Hse. eexists. reflexivity.
    + eexists. reflexivity.
  - destruct (Float64.Z libm_log _) as [f | e'].
    + unfold Float64.bind. rewrite Hse. eexists. reflexivity.
    + eexists. reflexivity.
Qed.

Lemma overflowed_count : Float64._count Float64.overflowed = 3%Z.
Proof. vm_compute. reflexivity. Qed.

Lemma overflowed_var :
  Float64.var Float64.overflowed = (Ok PrimFloat.neg_infinity, Float64.overflowed).
Proof. vm_compute. reflexivity. Qed.

Lemma overflowed_stddev :
  Float64.stddev Float64.overflowed = (Raise ValueError, Float64.overflowed).
Proof. vm_compute. reflexivity. Qed.

Lemma overflowed_stderr :
  Float64.stderr Float64.overflowed = (Raise ValueError, Float64.overflowed).
Proof. vm_compute. reflexivity. Qed.

(** C3 fails in binary64: after add(0.0), add(9e153), add(9e153) the count
    is 3, all the fields are finite, but the square of the centred sum
    overflows, [var()] is -inf and [stderr()] raises [ValueError]; so for
    the level 0.95, in (0,1), [conf] raises instead of returning
    multiplier * stderr(), whatever the logarithm returns. *)
Lemma C3_overflow_counterexample :
  (2 <= Float64._count Float64.overflowed)%Z /\
  PrimFloat.ltb PrimFloat.zero Float64.level_95 = true /\
  PrimFloat.ltb Float64.level_95 PrimFloat.one = true /\
  Float64.stderr Float64.overflowed = (Raise ValueError, Float64.overflowed) /\
  (forall libm_log, exists e,
     Float64.conf libm_log Float64.level_95 Float64.overflowed
     = (Raise e, Float64.overflowed)).
Proof.
  split; [rewrite overflowed_count; lia |].
  split; [vm_compute; reflexivity |]. split; [vm_compute; reflexivity |].
  split; [exact overflowed_stderr |].
  intros libm_log. apply (binary64_conf_raises libm_log _ _ ValueError).
  - rewrite overflowed_count. lia.
  - exact overflowed_stderr.
Qed.

(** C5 fails in binary64 at the same state: the count is 3, [var()]
    returns -inf, and [stddev()], [stderr()] and [conf(0.95)] raise, though
    not the insufficient-samples error, instead of returning a value. *)
Lemma C5_overflow_counterexample :
  Float64.count Float64.overflowed = (Ok 3%Z, Float64.overflowed) /\
  Float64.var Float64.overflowed = (Ok PrimFloat.neg_infinity, Float64.overflowed) /\
  Float64.stddev Float64.overflowed = (Raise ValueError, Float64.overflowed) /\
  Float64.stderr Float64.overflowed = (Raise ValueError, Float64.overflowed) /\
  (forall libm_log, exists e,
     Float64.conf libm_log Float64.level_95 Float64.overflowed
     = (Raise e, Float64.overflowed)) /\
  ~ InsufficientSamples 2 ValueError.
Proof.
  split; [vm_compute; reflexivity |].
  split; [exact overflowed_var |]. split; [exact overflowed_stddev |].
  split; [exact overflowed_stderr |]. split.
  - intros libm_log. apply (binary64_conf_raises libm_log _ _ ValueError).
    + rewrite overflowed_count. lia.
    + exact overflowed_stderr.
  - apply value_error_not_insufficient.
Qed.
